(** * Proportional profit allocation

    A shallow embedding of the calculation logic of the contractor
    calculator (src/app/calculator/page.tsx): the function
    [calculateMetrics], which splits the margin of a sale between an
    investor and a contractor in proportion to the costs each one bears,
    and [trendData], which samples that function over a range of prices.

    The source computes on JavaScript numbers.  The code is written once,
    over an interface [Arith] of the arithmetic it uses, and read in two
    ways:

    - [Exact.xnum]: exact rational arithmetic, extended with the IEEE
      special values that a division by zero produces.  This is the
      numeric domain the specification declares (real numbers, with
      NaN/Infinity on a zero divisor).  Rounding, overflow and the sign of
      zero are not part of it, so a general theorem below is a statement
      about exact arithmetic and says so.
    - [Binary64.float]: the IEEE 754 binary64 numbers of the kernel, which
      round and overflow as JavaScript numbers do.  It evaluates the code
      at concrete inputs, and shows where the identities of exact
      arithmetic fail on the numbers the program computes with. *)

From Stdlib Require Import ZArith QArith Qfield Lia Lqa List Floats.
From Stdlib Require Import Morphisms Setoid.
From Stdlib Require String.
Import ListNotations String.StringSyntax.
Delimit Scope string_scope with string.

(** ** The arithmetic the source uses *)

(** The operators [+], [-], [*], [/] of a [number], and numeric literals
    (all literals of the source are decimal fractions). *)
Class Arith (number : Type) : Type := {
  num_add : number -> number -> number;
  num_sub : number -> number -> number;
  num_mul : number -> number -> number;
  num_div : number -> number -> number;
  num_lit : Q -> number
}.

Declare Scope js_scope.
Delimit Scope js_scope with js.
Infix "+" := num_add : js_scope.
Infix "-" := num_sub : js_scope.
Infix "*" := num_mul : js_scope.
Infix "/" := num_div : js_scope.

(** The number a [nat] denotes: array indices and lengths used as numbers. *)
Definition num_of_nat {number : Type} `{Arith number} (n : nat) : number :=
  num_lit (inject_Z (Z.of_nat n)).

(** ** The calculation logic *)

Section Engine.

Context {number : Type} `{Arith number}.

(** The string [x.toFixed(fractionDigits)].  [Number.prototype.toFixed]
    is a built-in of the language; the string is kept as the call that
    produces it, and its digits are not computed. *)
Inductive Fixed : Type :=
| toFixed (x : number) (fractionDigits : nat).

Local Open Scope js_scope.

(** interface Metrics *)
Record Metrics : Type := {
  investorProfit : number;
  contractorProfit : number;
  investorProfitPercent : number;
  contractorProfitPercent : number;
  totalBaseCost : number;
  investorRatio : Fixed;
  contractorRatio : Fixed
}.

(** const calculateMetrics = (price, acquisition, labor, material) => ... *)
Definition calculateMetrics (price acquisition labor material : number)
  : Metrics :=
  let totalBaseCost := acquisition + labor + material in
  let investorCosts := acquisition + material in
  let contractorCosts := labor in
  let investorRatio := investorCosts / totalBaseCost in
  let contractorRatio := contractorCosts / totalBaseCost in
  let margin := price - totalBaseCost in
  let investorDistribution := investorCosts + investorRatio * margin in
  let contractorDistribution := contractorCosts + contractorRatio * margin in
  let investorProfit := investorDistribution - investorCosts in
  let contractorProfit := contractorDistribution - contractorCosts in
  {| investorProfit := investorProfit;
     contractorProfit := contractorProfit;
     investorProfitPercent := (investorProfit / investorCosts) * num_lit 100;
     contractorProfitPercent :=
       (contractorProfit / contractorCosts) * num_lit 100;
     totalBaseCost := totalBaseCost;
     investorRatio := toFixed (investorRatio * num_lit 100) 1;
     contractorRatio := toFixed (contractorRatio * num_lit 100) 1 |}.

(** The [const] bindings of the body of [calculateMetrics], in the order
    the source declares them.  The result record only exposes some of
    them; the ratios in particular are returned as formatted strings. *)
Record Bindings : Type := {
  b_totalBaseCost : number;
  b_investorCosts : number;
  b_contractorCosts : number;
  b_investorRatio : number;
  b_contractorRatio : number;
  b_margin : number;
  b_investorDistribution : number;
  b_contractorDistribution : number;
  b_investorProfit : number;
  b_contractorProfit : number
}.

Definition bindings (price acquisition labor material : number)
  : Bindings :=
  let totalBaseCost := acquisition + labor + material in
  let investorCosts := acquisition + material in
  let contractorCosts := labor in
  let investorRatio := investorCosts / totalBaseCost in
  let contractorRatio := contractorCosts / totalBaseCost in
  let margin := price - totalBaseCost in
  let investorDistribution := investorCosts + investorRatio * margin in
  let contractorDistribution := contractorCosts + contractorRatio * margin in
  let investorProfit := investorDistribution - investorCosts in
  let contractorProfit := contractorDistribution - contractorCosts in
  {| b_totalBaseCost := totalBaseCost;
     b_investorCosts := investorCosts;
     b_contractorCosts := contractorCosts;
     b_investorRatio := investorRatio;
     b_contractorRatio := contractorRatio;
     b_margin := margin;
     b_investorDistribution := investorDistribution;
     b_contractorDistribution := contractorDistribution;
     b_investorProfit := investorProfit;
     b_contractorProfit := contractorProfit |}.

(** The allocation as the specification words it (section 4.1, steps 1
    to 7): the profit of a party is its ratio times the margin, with no
    detour through the distribution. *)
Definition allocate (price acquisitionCost laborCost materialCost : number)
  : Metrics :=
  let totalBaseCost := acquisitionCost + laborCost + materialCost in
  let investorCost := acquisitionCost + materialCost in
  let contractorCost := laborCost in
  let investorRatio := investorCost / totalBaseCost in
  let contractorRatio := contractorCost / totalBaseCost in
  let margin := price - totalBaseCost in
  let investorProfit := investorRatio * margin in
  let contractorProfit := contractorRatio * margin in
  {| investorProfit := investorProfit;
     contractorProfit := contractorProfit;
     investorProfitPercent := investorProfit / investorCost * num_lit 100;
     contractorProfitPercent :=
       contractorProfit / contractorCost * num_lit 100;
     totalBaseCost := totalBaseCost;
     investorRatio := toFixed (investorRatio * num_lit 100) 1;
     contractorRatio := toFixed (contractorRatio * num_lit 100) 1 |}.

(** An element of the trend series. *)
Record TrendPoint : Type := {
  salePrice : number;
  pt_investorProfit : number;
  pt_contractorProfit : number;
  pt_investorProfitPercent : number;
  pt_contractorProfitPercent : number;
  pt_contractorRevenue : number
}.

(** The callback of [Array.from] in [trendData], given what it closes
    over: the sample at index [i]. *)
Definition trendPoint (minPrice stepSize : number)
    (acquisitionCost laborCost materialCost : number) (i : nat)
  : TrendPoint :=
  let price := minPrice + num_of_nat i * stepSize in
  let m := calculateMetrics price acquisitionCost laborCost materialCost in
  {| salePrice := price;
     pt_investorProfit := investorProfit m;
     pt_contractorProfit := contractorProfit m;
     pt_investorProfitPercent := investorProfitPercent m;
     pt_contractorProfitPercent := contractorProfitPercent m;
     pt_contractorRevenue := laborCost + contractorProfit m |}.

(** const trendData = useMemo(() => ..., [acquisitionCost, laborCost,
    materialCost]): a function of the three costs.
    [Array.from({ length: n }, (_, i) => f i)] is [f] mapped over the
    indices [0 .. n-1]. *)
Definition trendData (acquisitionCost laborCost materialCost : number)
  : list TrendPoint :=
  let totalCost := acquisitionCost + laborCost + materialCost in
  let minPrice := totalCost * num_lit 0.5 in
  let maxPrice := totalCost * num_lit 2 in
  let steps := 20%nat in
  let stepSize := (maxPrice - minPrice) / num_of_nat steps in
  map (trendPoint minPrice stepSize acquisitionCost laborCost materialCost)
      (seq 0 (steps + 1)).

End Engine.

Arguments Fixed number : clear implicits.
Arguments Metrics number : clear implicits.
Arguments Bindings number : clear implicits.
Arguments TrendPoint number : clear implicits.

(** ** Exact arithmetic with the IEEE special values *)

Module Exact.

(** A number is a rational, an infinity or NaN.  Finite values are
    computed exactly; a division by zero gives an infinity or NaN as
    IEEE 754 prescribes, with zero read as [+0]. *)
Inductive xnum : Type :=
| Fin (q : Q)
| PInf
| NInf
| NaN.

(** The infinity of a sign; no sign ([Eq]) is an invalid operation. *)
Definition of_sign (c : comparison) : xnum :=
  match c with
  | Gt => PInf
  | Lt => NInf
  | Eq => NaN
  end.

(** The sign of a number that is not NaN. *)
Definition sign (x : xnum) : comparison :=
  match x with
  | Fin q => q ?= 0
  | PInf => Gt
  | NInf => Lt
  | NaN => Eq
  end.

Definition sign_mul (c d : comparison) : comparison :=
  match c, d with
  | Eq, _ | _, Eq => Eq
  | Gt, Gt | Lt, Lt => Gt
  | Gt, Lt | Lt, Gt => Lt
  end.

Definition xneg (x : xnum) : xnum :=
  match x with
  | Fin q => Fin (- q)
  | PInf => NInf
  | NInf => PInf
  | NaN => NaN
  end.

Definition xadd (x y : xnum) : xnum :=
  match x, y with
  | NaN, _ | _, NaN => NaN
  | Fin p, Fin q => Fin (p + q)
  | PInf, NInf | NInf, PInf => NaN
  | PInf, _ | _, PInf => PInf
  | NInf, _ | _, NInf => NInf
  end.

Definition xsub (x y : xnum) : xnum :=
  match x, y with
  | Fin p, Fin q => Fin (p - q)
  | _, _ => xadd x (xneg y)
  end.

Definition xmul (x y : xnum) : xnum :=
  match x, y with
  | NaN, _ | _, NaN => NaN
  | Fin p, Fin q => Fin (p * q)
  | _, _ => of_sign (sign_mul (sign x) (sign y))
  end.

Definition xdiv (x y : xnum) : xnum :=
  match x, y with
  | NaN, _ | _, NaN => NaN
  | Fin p, Fin q => if Qeq_bool q 0 then of_sign (p ?= 0) else Fin (p / q)
  | Fin _, _ => Fin 0
  | _, Fin q => of_sign (sign_mul (sign x) (if Qle_bool 0 q then Gt else Lt))
  | _, _ => NaN
  end.

#[global] Instance xnum_arith : Arith xnum := {|
  num_add := xadd;
  num_sub := xsub;
  num_mul := xmul;
  num_div := xdiv;
  num_lit := Fin
|}.

(** [Number.isFinite] *)
Definition isFinite (x : xnum) : bool :=
  match x with
  | Fin _ => true
  | _ => false
  end.

(** The relational operator [<]: false as soon as one side is NaN. *)
Definition xltb (x y : xnum) : bool :=
  match x, y with
  | NaN, _ | _, NaN => false
  | Fin p, Fin q => match p ?= q with Lt => true | _ => false end
  | NInf, NInf | PInf, _ | _, NInf => false
  | NInf, _ | _, PInf => true
  end.

(** Two numbers denote the same value: equal rationals, or the same
    special value.  (This is sameness of value, not the operator [==],
    under which NaN differs from itself.) *)
Definition xeq (x y : xnum) : Prop :=
  match x, y with
  | Fin p, Fin q => p == q
  | PInf, PInf | NInf, NInf | NaN, NaN => True
  | _, _ => False
  end.

(** The same call of [toFixed]: the same value, to as many decimals. *)
Definition fixed_eq (s t : Fixed xnum) : Prop :=
  match s, t with
  | toFixed x d, toFixed y e => xeq x y /\ d = e
  end.

(** Two result records hold the same values. *)
Definition metrics_eq (r s : Metrics xnum) : Prop :=
  xeq (investorProfit r) (investorProfit s) /\
  xeq (contractorProfit r) (contractorProfit s) /\
  xeq (investorProfitPercent r) (investorProfitPercent s) /\
  xeq (contractorProfitPercent r) (contractorProfitPercent s) /\
  xeq (totalBaseCost r) (totalBaseCost s) /\
  fixed_eq (investorRatio r) (investorRatio s) /\
  fixed_eq (contractorRatio r) (contractorRatio s).

End Exact.

(** ** IEEE 754 binary64 *)

Module Binary64.

(** The binary64 number of an integer below 2^63 in magnitude (exact
    below 2^53). *)
Definition of_Z (z : Z) : float :=
  match z with
  | Z0 => PrimFloat.zero
  | Zpos _ => PrimFloat.of_uint63 (Uint63.of_Z z)
  | Zneg p => PrimFloat.opp (PrimFloat.of_uint63 (Uint63.of_Z (Zpos p)))
  end.

(** A decimal literal [n/d] with [n] and [d] below 2^53: the correctly
    rounded quotient of two exact numbers is the binary64 number nearest
    to the fraction, which is how a literal is read. *)
Definition of_Q (q : Q) : float :=
  PrimFloat.div (of_Z (Qnum q)) (of_Z (Zpos (Qden q))).

#[global] Instance float_arith : Arith float := {|
  num_add := PrimFloat.add;
  num_sub := PrimFloat.sub;
  num_mul := PrimFloat.mul;
  num_div := PrimFloat.div;
  num_lit := of_Q
|}.

(** [Number.isFinite] *)
Definition isFinite (x : float) : bool :=
  negb (PrimFloat.is_nan x || PrimFloat.is_infinity x).

End Binary64.

(** ** The presentation layer

    The components around the calculation: what they compute from their
    props before they render, and the text they render.  Effects on the
    document, event handlers and the chart library are not part of it. *)

(** The relational operators [<], [>=] and [===] of a [number]. *)
Class Compare (number : Type) : Type := {
  num_lt : number -> number -> bool;
  num_ge : number -> number -> bool;
  num_seq : number -> number -> bool
}.

Section View.

Context {number : Type} `{Arith number} `{Compare number}.

Local Open Scope js_scope.
Local Open Scope string_scope.

(** A string put together by a template literal or by the children of an
    element: its chunks in order.  A chunk is literal text, a call of
    [toFixed], or a number converted by the template ([${x}]); the digits
    of the last two are those of the language and are not computed. *)
Inductive Chunk : Type :=
| Lit (s : String.string)
| Num (f : Fixed number)
| Str (x : number).

(** const formatThousands = (num) => `$${num.toFixed(0)}K` *)
Definition formatThousands (num : number) : list Chunk :=
  [Lit "$"; Num (toFixed num 0); Lit "K"].

(** What [ContractorProfitLabel] returns: the empty group [<g />], or a
    [<text>] element at a position. *)
Inductive LabelView : Type :=
| EmptyGroup
| TextAt (x y : number) (content : list Chunk).

(** function ContractorProfitLabel(props), a prop being [undefined] or a
    number. *)
Definition ContractorProfitLabel (x y width height value : option number)
  : LabelView :=
  match x, y, width, height, value with
  | Some x, Some y, Some width, Some height, Some value =>
      let labelY := if num_lt value (num_lit 0) then y + height else y in
      let displayedValue :=
        Lit (if num_ge value (num_lit 0) then "+" else "")
        :: formatThousands value in
      TextAt (x + width / num_lit 2) (labelY - num_lit 5) displayedValue
  | _, _, _, _, _ => EmptyGroup
  end.

(** What [SalePriceSlider] computes and renders. *)
Record SliderView : Type := {
  sliderRange : number;
  salePricePercent : number;
  baseCostPercent : number;
  profitPercentage : number;
  priceDisplay : list Chunk;
  markerLeft : list Chunk;
  thumbLabelLeft : list Chunk;
  thumbLabel : list Chunk
}.

(** const SalePriceSlider = ({ value, onChange, min, max, step, baseCost })
    => ... *)
Definition SalePriceSlider (value min max baseCost : number) : SliderView :=
  let sliderRange := max - min in
  let salePricePercent := ((value - min) / sliderRange) * num_lit 100 in
  let baseCostPercent := ((baseCost - min) / sliderRange) * num_lit 100 in
  let profitPercentage := ((value - baseCost) / baseCost) * num_lit 100 in
  {| sliderRange := sliderRange;
     salePricePercent := salePricePercent;
     baseCostPercent := baseCostPercent;
     profitPercentage := profitPercentage;
     priceDisplay := Lit "Sale Price: " :: formatThousands value;
     markerLeft := [Str baseCostPercent; Lit "%"];
     thumbLabelLeft := [Str salePricePercent; Lit "%"];
     thumbLabel :=
       [Lit (if num_ge profitPercentage (num_lit 0) then "+" else "");
        Num (toFixed profitPercentage 0); Lit "%"] |}.

(** A row of [combinedProfitData]. *)
Record ProfitRow : Type := {
  row_name : String.string;
  row_investorProfit : number;
  row_contractorProfit : number;
  row_laborCost : number;
  row_contractorRevenue : number
}.

(** A row of [percentageData]. *)
Record PercentRow : Type := {
  pct_name : String.string;
  percentage : number
}.

(** const CustomBarTooltip = ({ active, payload, label }) => ...: the
    paragraphs of the tooltip, or [null].  [payload] is [undefined] or the
    array of the chart's entries, each given by the data row it carries. *)
Definition CustomBarTooltip (active : bool) (payload : option (list ProfitRow))
  : option (list (list Chunk)) :=
  match active, payload with
  | true, Some (data :: _) =>
      if String.eqb (row_name data) "Contractor" then
        Some [Lit "Contractor Profit: "
                :: formatThousands (row_contractorProfit data);
              Lit "Labor Cost: " :: formatThousands (row_laborCost data);
              Lit "Total Revenue: "
                :: formatThousands (row_contractorRevenue data)]
      else
        Some [Lit "Investor Profit: "
                :: formatThousands (row_investorProfit data)]
  | _, _ => None
  end.

(** The formatter of the bar labels: (value) => value === 0 ? '' :
    formatThousands(value) *)
Definition barLabel (value : number) : list Chunk :=
  if num_seq value (num_lit 0) then [Lit ""] else formatThousands value.

(** What [ProfitSharingDashboard] computes from its state. *)
Record Dashboard : Type := {
  metrics : Metrics number;
  dash_totalBaseCost : number;
  contractorRevenue : number;
  investorCapitalAtRisk : number;
  totalLoss : number;
  salePriceMin : number;
  salePriceMax : number;
  dash_trendData : list (TrendPoint number);
  combinedProfitData : list ProfitRow;
  percentageData : list PercentRow;
  salePriceSlider : SliderView
}.

(** const ProfitSharingDashboard = () => ..., as a function of the four
    state variables. *)
Definition ProfitSharingDashboard
    (salePrice acquisitionCost laborCost materialCost : number) : Dashboard :=
  let metrics :=
    calculateMetrics salePrice acquisitionCost laborCost materialCost in
  let totalBaseCost := totalBaseCost metrics in
  let contractorRevenue := laborCost + contractorProfit metrics in
  let investorCapitalAtRisk := acquisitionCost + materialCost in
  let totalLoss := salePrice - totalBaseCost in
  let salePriceMin := totalBaseCost * num_lit 0.8 in
  let salePriceMax := totalBaseCost * num_lit 1.5 in
  let trendData := trendData acquisitionCost laborCost materialCost in
  let combinedProfitData :=
    [ {| row_name := "Investor";
         row_investorProfit := investorProfit metrics;
         row_contractorProfit := num_lit 0;
         row_laborCost := num_lit 0;
         row_contractorRevenue := num_lit 0 |};
      {| row_name := "Contractor";
         row_investorProfit := num_lit 0;
         row_contractorProfit := contractorProfit metrics;
         row_laborCost := laborCost;
         row_contractorRevenue := contractorRevenue |} ] in
  let percentageData :=
    [ {| pct_name := "Investor";
         percentage := investorProfitPercent metrics |};
      {| pct_name := "Contractor";
         percentage := contractorProfitPercent metrics |} ] in
  {| metrics := metrics;
     dash_totalBaseCost := totalBaseCost;
     contractorRevenue := contractorRevenue;
     investorCapitalAtRisk := investorCapitalAtRisk;
     totalLoss := totalLoss;
     salePriceMin := salePriceMin;
     salePriceMax := salePriceMax;
     dash_trendData := trendData;
     combinedProfitData := combinedProfitData;
     percentageData := percentageData;
     salePriceSlider :=
       SalePriceSlider salePrice salePriceMin salePriceMax totalBaseCost |}.

(** The state the component starts in: useState(200), useState(80),
    useState(40), useState(40). *)
Definition initialDashboard : Dashboard :=
  ProfitSharingDashboard (num_lit 200) (num_lit 80) (num_lit 40) (num_lit 40).

(** The [min] and [max] of the three cost sliders. *)
Definition acquisitionCostRange : number * number := (num_lit 10, num_lit 120).
Definition laborCostRange : number * number := (num_lit 20, num_lit 80).
Definition materialCostRange : number * number := (num_lit 20, num_lit 80).

End View.

Arguments Chunk number : clear implicits.
Arguments LabelView number : clear implicits.
Arguments SliderView number : clear implicits.
Arguments ProfitRow number : clear implicits.
Arguments PercentRow number : clear implicits.
Arguments Dashboard number : clear implicits.

(** [>=] and [===] in exact arithmetic. *)
Definition xgeb (x y : Exact.xnum) : bool :=
  match x, y with
  | Exact.NaN, _ | _, Exact.NaN => false
  | _, _ => negb (Exact.xltb x y)
  end.

Definition xseqb (x y : Exact.xnum) : bool :=
  match x, y with
  | Exact.Fin p, Exact.Fin q => Qeq_bool p q
  | Exact.PInf, Exact.PInf | Exact.NInf, Exact.NInf => true
  | _, _ => false
  end.

#[global] Instance xnum_compare : Compare Exact.xnum := {|
  num_lt := Exact.xltb;
  num_ge := xgeb;
  num_seq := xseqb
|}.

#[global] Instance float_compare : Compare float := {|
  num_lt := PrimFloat.ltb;
  num_ge := fun x y => PrimFloat.leb y x;
  num_seq := PrimFloat.eqb
|}.

(** * Properties of the calculation logic *)

Import Exact.

(** ** Sameness of value is an equivalence the arithmetic respects *)

#[global] Instance xeq_Equivalence : Equivalence xeq.
Proof.
  split.
  - intros [q| | |]; simpl; auto with qarith.
  - intros [p| | |] [q| | |]; simpl; auto with qarith.
  - intros [p| | |] [q| | |] [r| | |]; simpl; try tauto.
    apply Qeq_trans.
Qed.

Lemma sign_Proper (x y : xnum) : xeq x y -> sign x = sign y.
Proof.
  destruct x as [p| | |], y as [q| | |]; simpl; try tauto.
  intros E. now rewrite E.
Qed.

Lemma Qeq_bool_Qeq (p q r : Q) : p == q -> Qeq_bool p r = Qeq_bool q r.
Proof.
  intros E. destruct (Qeq_bool q r) eqn:B.
  - apply Qeq_bool_iff. apply Qeq_bool_iff in B. now rewrite E.
  - destruct (Qeq_bool p r) eqn:C; [|reflexivity].
    apply Qeq_bool_iff in C. rewrite E in C.
    apply Qeq_bool_iff in C. congruence.
Qed.

Lemma Qle_bool_Qeq (p q r : Q) : p == q -> Qle_bool r p = Qle_bool r q.
Proof.
  intros E. destruct (Qle_bool r q) eqn:B.
  - apply Qle_bool_iff. apply Qle_bool_iff in B. now rewrite E.
  - destruct (Qle_bool r p) eqn:C; [|reflexivity].
    apply Qle_bool_iff in C. rewrite E in C.
    apply Qle_bool_iff in C. congruence.
Qed.

#[global] Instance xneg_Proper : Proper (xeq ==> xeq) xneg.
Proof.
  intros [p| | |] [q| | |]; simpl; try tauto.
  intros E. now rewrite E.
Qed.

#[global] Instance xadd_Proper : Proper (xeq ==> xeq ==> xeq) xadd.
Proof.
  intros [p| | |] [p'| | |] E [q| | |] [q'| | |] F; simpl in *; try tauto.
  now rewrite E, F.
Qed.

#[global] Instance xsub_Proper : Proper (xeq ==> xeq ==> xeq) xsub.
Proof.
  intros [p| | |] [p'| | |] E [q| | |] [q'| | |] F; simpl in *; try tauto.
  now rewrite E, F.
Qed.

#[global] Instance xmul_Proper : Proper (xeq ==> xeq ==> xeq) xmul.
Proof.
  intros [p| | |] [p'| | |] E [q| | |] [q'| | |] F; simpl in *; try tauto;
    try (now rewrite E, F);
    try (rewrite E; reflexivity); try (rewrite F; reflexivity).
Qed.

#[global] Instance xdiv_Proper : Proper (xeq ==> xeq ==> xeq) xdiv.
Proof.
  intros [p| | |] [p'| | |] E [q| | |] [q'| | |] F; simpl in *; try tauto;
    try reflexivity.
  - rewrite (Qeq_bool_Qeq q q' 0 F).
    destruct (Qeq_bool q' 0).
    + rewrite E. reflexivity.
    + simpl. now rewrite E, F.
  - rewrite (Qle_bool_Qeq q q' 0 F). reflexivity.
  - rewrite (Qle_bool_Qeq q q' 0 F). reflexivity.
Qed.

(** ** Arithmetic on finite values *)

Lemma Qeq_bool_nonzero (q : Q) : ~ q == 0 -> Qeq_bool q 0 = false.
Proof.
  intros N. destruct (Qeq_bool q 0) eqn:B; [|reflexivity].
  apply Qeq_bool_iff in B. contradiction.
Qed.

Lemma Qeq_bool_zero (q : Q) : q == 0 -> Qeq_bool q 0 = true.
Proof. intros E. now apply Qeq_bool_iff. Qed.

Lemma xadd_fin (p q : Q) : xadd (Fin p) (Fin q) = Fin (p + q).
Proof. reflexivity. Qed.

Lemma xsub_fin (p q : Q) : xsub (Fin p) (Fin q) = Fin (p - q).
Proof. reflexivity. Qed.

Lemma xmul_fin (p q : Q) : xmul (Fin p) (Fin q) = Fin (p * q).
Proof. reflexivity. Qed.

Lemma xdiv_fin (p q : Q) : ~ q == 0 -> xdiv (Fin p) (Fin q) = Fin (p / q).
Proof. intros N. simpl. now rewrite Qeq_bool_nonzero. Qed.

Lemma xdiv_by_zero (p q : Q) :
  q == 0 -> xdiv (Fin p) (Fin q) = of_sign (p ?= 0).
Proof. intros E. simpl. now rewrite Qeq_bool_zero. Qed.

(** A division of finite values is finite exactly when the divisor is
    not zero. *)
Lemma isFinite_xdiv_fin (p q : Q) :
  isFinite (xdiv (Fin p) (Fin q)) = true <-> ~ q == 0.
Proof.
  split.
  - intros F E. rewrite (xdiv_by_zero p q E) in F.
    destruct (p ?= 0); discriminate.
  - intros N. now rewrite xdiv_fin.
Qed.

(** Reduces the operators of the source at finite arguments; a division
    asks for its divisor to be known nonzero. *)
Ltac fin_arith :=
  cbn [num_add num_sub num_mul num_div num_lit xnum_arith
       investorProfit contractorProfit investorProfitPercent
       contractorProfitPercent totalBaseCost investorRatio contractorRatio];
  repeat first
    [ rewrite xadd_fin | rewrite xsub_fin | rewrite xmul_fin
    | rewrite xdiv_fin by assumption ].

(** ** The result record and the bindings it is built from *)

(** Every field of the result of [calculateMetrics] is the binding of the
    same name, or is computed from the bindings as the [return] statement
    says.  This holds for any arithmetic. *)
Lemma calculateMetrics_bindings {number : Type} `{Arith number}
    (price acquisition labor material : number) :
  let r := calculateMetrics price acquisition labor material in
  let b := bindings price acquisition labor material in
  investorProfit r = b_investorProfit b /\
  contractorProfit r = b_contractorProfit b /\
  investorProfitPercent r =
    ((b_investorProfit b / b_investorCosts b) * num_lit 100)%js /\
  contractorProfitPercent r =
    ((b_contractorProfit b / b_contractorCosts b) * num_lit 100)%js /\
  totalBaseCost r = b_totalBaseCost b /\
  investorRatio r = toFixed (b_investorRatio b * num_lit 100)%js 1 /\
  contractorRatio r = toFixed (b_contractorRatio b * num_lit 100)%js 1.
Proof. cbv zeta. repeat split; reflexivity. Qed.

(** The distribution of a party minus its own cost is what was added to
    the cost, whatever that is (finite, infinite or NaN). *)
Lemma xsub_xadd_cancel (c : Q) (x : xnum) :
  xeq (xsub (xadd (Fin c) x) (Fin c)) x.
Proof.
  destruct x as [q| | |]; simpl; trivial.
  field.
Qed.

(** [calculateMetrics] computes what [allocate] computes, at all finite
    inputs (a zero base cost included). *)
Lemma calculateMetrics_allocate (price acquisitionCost laborCost materialCost : Q) :
  metrics_eq
    (calculateMetrics (Fin price) (Fin acquisitionCost) (Fin laborCost)
       (Fin materialCost))
    (allocate (Fin price) (Fin acquisitionCost) (Fin laborCost)
       (Fin materialCost)).
Proof.
  pose proof (xsub_xadd_cancel (acquisitionCost + materialCost)) as I.
  pose proof (xsub_xadd_cancel laborCost) as C.
  unfold metrics_eq, calculateMetrics, allocate, fixed_eq.
  cbn [investorProfit contractorProfit investorProfitPercent
       contractorProfitPercent totalBaseCost investorRatio contractorRatio
       num_add num_sub num_mul num_div num_lit xnum_arith].
  rewrite !xadd_fin.
  repeat split; try reflexivity; rewrite ?I, ?C; reflexivity.
Qed.

(** ** Finite inputs with a nonzero base cost *)

Section NonzeroBaseCost.

Variables price acquisitionCost laborCost materialCost : Q.

Local Abbreviation totalCost := (acquisitionCost + laborCost + materialCost).
Local Abbreviation investorCost := (acquisitionCost + materialCost).
Local Abbreviation metrics :=
  (calculateMetrics (Fin price) (Fin acquisitionCost) (Fin laborCost)
     (Fin materialCost)).
Local Abbreviation consts :=
  (bindings (Fin price) (Fin acquisitionCost) (Fin laborCost)
     (Fin materialCost)).

Hypothesis base_nonzero : ~ totalCost == 0.

(** The bindings, as rational expressions. *)
Lemma bindings_fin :
  consts =
  {| b_totalBaseCost := Fin totalCost;
     b_investorCosts := Fin investorCost;
     b_contractorCosts := Fin laborCost;
     b_investorRatio := Fin (investorCost / totalCost);
     b_contractorRatio := Fin (laborCost / totalCost);
     b_margin := Fin (price - totalCost);
     b_investorDistribution :=
       Fin (investorCost + investorCost / totalCost * (price - totalCost));
     b_contractorDistribution :=
       Fin (laborCost + laborCost / totalCost * (price - totalCost));
     b_investorProfit :=
       Fin (investorCost + investorCost / totalCost * (price - totalCost)
            - investorCost);
     b_contractorProfit :=
       Fin (laborCost + laborCost / totalCost * (price - totalCost)
            - laborCost) |}.
Proof. unfold bindings. fin_arith. reflexivity. Qed.

Lemma investorProfit_fin :
  investorProfit metrics =
  Fin (investorCost + investorCost / totalCost * (price - totalCost)
       - investorCost).
Proof. unfold calculateMetrics. fin_arith. reflexivity. Qed.

Lemma contractorProfit_fin :
  contractorProfit metrics =
  Fin (laborCost + laborCost / totalCost * (price - totalCost) - laborCost).
Proof. unfold calculateMetrics. fin_arith. reflexivity. Qed.

Lemma investorProfitPercent_fin :
  ~ investorCost == 0 ->
  investorProfitPercent metrics =
  Fin ((investorCost + investorCost / totalCost * (price - totalCost)
        - investorCost) / investorCost * 100).
Proof. intros N. unfold calculateMetrics. fin_arith. reflexivity. Qed.

Lemma contractorProfitPercent_fin :
  ~ laborCost == 0 ->
  contractorProfitPercent metrics =
  Fin ((laborCost + laborCost / totalCost * (price - totalCost) - laborCost)
       / laborCost * 100).
Proof. intros N. unfold calculateMetrics. fin_arith. reflexivity. Qed.

(** C1, in exact arithmetic.  For every input whose base cost is not
    zero, [calculateMetrics] returns investorProfit = investorRatio * margin and contractorProfit =
    contractorRatio * margin, where the ratios are the party's cost over
    the base cost and the margin is the price minus the base cost; when
    the party's cost is not zero, its percentage is that profit over the
    cost, times 100.  The result of the code, which goes through the
    distribution (cost + ratio * margin, minus the cost), is the result of
    the direct formulation [allocate] of the specification. *)
Theorem calculateMetrics_ratio_times_margin :
  xeq (investorProfit metrics)
      (Fin (investorCost / totalCost * (price - totalCost))) /\
  xeq (contractorProfit metrics)
      (Fin (laborCost / totalCost * (price - totalCost))) /\
  (~ investorCost == 0 ->
   xeq (investorProfitPercent metrics)
       (Fin (investorCost / totalCost * (price - totalCost)
             / investorCost * 100))) /\
  (~ laborCost == 0 ->
   xeq (contractorProfitPercent metrics)
       (Fin (laborCost / totalCost * (price - totalCost)
             / laborCost * 100))) /\
  metrics_eq metrics
    (allocate (Fin price) (Fin acquisitionCost) (Fin laborCost)
       (Fin materialCost)).
Proof.
  split; [|split; [|split; [|split]]].
  - rewrite investorProfit_fin. simpl. field. exact base_nonzero.
  - rewrite contractorProfit_fin. simpl. field. exact base_nonzero.
  - intros N. rewrite (investorProfitPercent_fin N). simpl.
    field. repeat split; assumption.
  - intros N. rewrite (contractorProfitPercent_fin N). simpl.
    field. repeat split; assumption.
  - apply calculateMetrics_allocate.
Qed.

(** C2, in exact arithmetic.  For every input whose base cost is not
    zero, the two profits returned by [calculateMetrics] add up to the
    margin, price minus base cost, exactly. *)
Theorem conservation_exact :
  xeq (xadd (investorProfit metrics) (contractorProfit metrics))
      (Fin (price - totalCost)).
Proof.
  rewrite investorProfit_fin, contractorProfit_fin. simpl.
  field. exact base_nonzero.
Qed.

(** C3, in exact arithmetic.  For every input whose base cost is not
    zero, the bindings
    [investorRatio] = (acquisition + material) / totalBaseCost and
    [contractorRatio] = labor / totalBaseCost of [calculateMetrics] add up
    to exactly 1.  They are the ratios the result record prints. *)
Theorem ratio_partition :
  b_investorRatio consts = Fin (investorCost / totalCost) /\
  b_contractorRatio consts = Fin (laborCost / totalCost) /\
  xeq (xadd (b_investorRatio consts) (b_contractorRatio consts)) (Fin 1) /\
  investorRatio metrics = toFixed (xmul (b_investorRatio consts) (Fin 100)) 1 /\
  contractorRatio metrics =
    toFixed (xmul (b_contractorRatio consts) (Fin 100)) 1.
Proof.
  rewrite bindings_fin. cbn [b_investorRatio b_contractorRatio].
  split; [|split; [|split; [|split]]]; try reflexivity.
  - simpl. field. exact base_nonzero.
  - unfold calculateMetrics. fin_arith. reflexivity.
  - unfold calculateMetrics. fin_arith. reflexivity.
Qed.

(** C10, in exact arithmetic.  For every input in which the base cost,
    the investor's cost
    and the contractor's cost are all nonzero, the two percentages
    returned by [calculateMetrics] are the same value, the margin over
    the base cost times 100. *)
Theorem equal_percent_return :
  ~ investorCost == 0 -> ~ laborCost == 0 ->
  xeq (investorProfitPercent metrics) (contractorProfitPercent metrics) /\
  xeq (investorProfitPercent metrics)
      (Fin ((price - totalCost) / totalCost * 100)) /\
  xeq (contractorProfitPercent metrics)
      (Fin ((price - totalCost) / totalCost * 100)).
Proof.
  intros NI NC.
  rewrite (investorProfitPercent_fin NI), (contractorProfitPercent_fin NC).
  simpl. repeat split; field; repeat split; assumption.
Qed.

End NonzeroBaseCost.

(** ** Comparison of finite values *)

Lemma xltb_fin (p q : Q) : xltb (Fin p) (Fin q) = true <-> p < q.
Proof.
  simpl. rewrite Qlt_alt.
  destruct (p ?= q); split; intros E; congruence.
Qed.

(** ** Scaling, monotonicity, break-even *)

(** C4, in exact arithmetic.  For every input whose base cost is not
    zero and every positive
    factor [k], [calculateMetrics] at the four inputs multiplied by [k]
    returns [k] times the investorProfit and [k] times the
    contractorProfit of the call at the inputs themselves. *)
Theorem scaling_homogeneous (k price acquisitionCost laborCost materialCost : Q) :
  ~ acquisitionCost + laborCost + materialCost == 0 ->
  0 < k ->
  let r :=
    calculateMetrics (Fin price) (Fin acquisitionCost) (Fin laborCost)
      (Fin materialCost) in
  let rk :=
    calculateMetrics (Fin k * Fin price)%js (Fin k * Fin acquisitionCost)%js
      (Fin k * Fin laborCost)%js (Fin k * Fin materialCost)%js in
  xeq (investorProfit rk) (Fin k * investorProfit r)%js /\
  xeq (contractorProfit rk) (Fin k * contractorProfit r)%js.
Proof.
  intros HT Hk r rk. subst r rk.
  assert (Nk : ~ k == 0) by (intros E; rewrite E in Hk; discriminate Hk).
  assert (HkT : ~ k * acquisitionCost + k * laborCost + k * materialCost == 0).
  { intros E. apply HT.
    assert (F : k * (acquisitionCost + laborCost + materialCost) == 0)
      by (rewrite <- E; ring).
    destruct (Qmult_integral _ _ F) as [Z|Z]; [contradiction|exact Z]. }
  cbn [num_mul xnum_arith]. rewrite !xmul_fin.
  rewrite (investorProfit_fin _ _ _ _ HkT), (contractorProfit_fin _ _ _ _ HkT).
  rewrite (investorProfit_fin _ _ _ _ HT), (contractorProfit_fin _ _ _ _ HT).
  rewrite !xmul_fin. simpl.
  split; field; split; assumption.
Qed.

(** C5, in exact arithmetic.  For costs whose sum is not zero and two
    prices [price1 < price2],
    the investorProfit returned by [calculateMetrics] at [price2] is
    strictly greater than at [price1] whenever the investor's ratio is
    positive, and likewise the contractorProfit whenever the contractor's
    ratio is positive.  (The ratios do not depend on the price.) *)
Theorem profit_strictly_increasing_in_price
    (price1 price2 acquisitionCost laborCost materialCost : Q) :
  ~ acquisitionCost + laborCost + materialCost == 0 ->
  price1 < price2 ->
  let b1 :=
    bindings (Fin price1) (Fin acquisitionCost) (Fin laborCost)
      (Fin materialCost) in
  let b2 :=
    bindings (Fin price2) (Fin acquisitionCost) (Fin laborCost)
      (Fin materialCost) in
  let r1 :=
    calculateMetrics (Fin price1) (Fin acquisitionCost) (Fin laborCost)
      (Fin materialCost) in
  let r2 :=
    calculateMetrics (Fin price2) (Fin acquisitionCost) (Fin laborCost)
      (Fin materialCost) in
  b_investorRatio b1 = b_investorRatio b2 /\
  b_contractorRatio b1 = b_contractorRatio b2 /\
  (xltb (Fin 0) (b_investorRatio b1) = true ->
   xltb (investorProfit r1) (investorProfit r2) = true) /\
  (xltb (Fin 0) (b_contractorRatio b1) = true ->
   xltb (contractorProfit r1) (contractorProfit r2) = true).
Proof.
  intros HT Hp b1 b2 r1 r2. subst b1 b2 r1 r2.
  rewrite !(bindings_fin _ _ _ _ HT).
  rewrite !(investorProfit_fin _ _ _ _ HT), !(contractorProfit_fin _ _ _ _ HT).
  cbn [b_investorRatio b_contractorRatio].
  rewrite !xltb_fin.
  split; [reflexivity|split; [reflexivity|]].
  split; intros R.
  - set (ratio := (acquisitionCost + materialCost)
                  / (acquisitionCost + laborCost + materialCost)) in *.
    assert (0 < ratio * (price2 - price1))
      by (apply Qmult_lt_0_compat; [exact R | lra]).
    lra.
  - set (ratio := laborCost / (acquisitionCost + laborCost + materialCost))
      in *.
    assert (0 < ratio * (price2 - price1))
      by (apply Qmult_lt_0_compat; [exact R | lra]).
    lra.
Qed.


(** C7.  [calculateMetrics] at price 200, acquisition 80, labor 40,
    material 40 has base cost 160, investor cost 120, contractor cost 40,
    margin 40, ratios 0.75 and 0.25, and returns investorProfit = 30 and
    contractorProfit = 10; at price 120 with the same costs the margin is
    -40 and it returns investorProfit = -30 and contractorProfit = -10.
    Both hold in exact arithmetic and in binary64 arithmetic. *)
Theorem concrete_scenarios :
  (let b := bindings (Fin 200) (Fin 80) (Fin 40) (Fin 40) in
   let r := calculateMetrics (Fin 200) (Fin 80) (Fin 40) (Fin 40) in
   xeq (totalBaseCost r) (Fin 160) /\
   xeq (b_investorCosts b) (Fin 120) /\
   xeq (b_contractorCosts b) (Fin 40) /\
   xeq (b_margin b) (Fin 40) /\
   xeq (b_investorRatio b) (Fin 0.75) /\
   xeq (b_contractorRatio b) (Fin 0.25) /\
   xeq (investorProfit r) (Fin 30) /\
   xeq (contractorProfit r) (Fin 10)) /\
  (let b := bindings (Fin 120) (Fin 80) (Fin 40) (Fin 40) in
   let r := calculateMetrics (Fin 120) (Fin 80) (Fin 40) (Fin 40) in
   xeq (b_margin b) (Fin (-40)) /\
   xeq (investorProfit r) (Fin (-30)) /\
   xeq (contractorProfit r) (Fin (-10))) /\
  (let b := bindings 200%float 80%float 40%float 40%float in
   let r := calculateMetrics 200%float 80%float 40%float 40%float in
   totalBaseCost r = 160%float /\
   b_investorCosts b = 120%float /\
   b_contractorCosts b = 40%float /\
   b_margin b = 40%float /\
   b_investorRatio b = 0.75%float /\
   b_contractorRatio b = 0.25%float /\
   investorProfit r = 30%float /\
   contractorProfit r = 10%float) /\
  (let b := bindings 120%float 80%float 40%float 40%float in
   let r := calculateMetrics 120%float 80%float 40%float 40%float in
   b_margin b = (-40)%float /\
   investorProfit r = (-30)%float /\
   contractorProfit r = (-10)%float).
Proof.
  repeat split; vm_compute; reflexivity.
Qed.

(** ** Finite and non-finite results *)

Lemma isFinite_of_sign (c : comparison) (d : comparison) :
  d <> Eq -> isFinite (of_sign (sign_mul d c)) = false.
Proof. destruct c, d; simpl; congruence. Qed.

Lemma isFinite_xadd_fin (c : Q) (x : xnum) :
  isFinite (xadd (Fin c) x) = isFinite x.
Proof. destruct x; reflexivity. Qed.

Lemma isFinite_xsub_fin (x : xnum) (c : Q) :
  isFinite (xsub x (Fin c)) = isFinite x.
Proof. destruct x; reflexivity. Qed.

Lemma isFinite_xmul_fin (x : xnum) (c : Q) :
  isFinite (xmul x (Fin c)) = isFinite x.
Proof.
  destruct x; try reflexivity; simpl; destruct (c ?= 0); reflexivity.
Qed.

(** A quotient by a finite divisor is finite exactly when the dividend is
    finite and the divisor is not zero. *)
Lemma isFinite_xdiv (x : xnum) (c : Q) :
  isFinite (xdiv x (Fin c)) = true <-> isFinite x = true /\ ~ c == 0.
Proof.
  destruct x as [p| | |].
  - rewrite isFinite_xdiv_fin. simpl. tauto.
  - simpl. destruct (Qle_bool 0 c); simpl; split; intros F;
      [discriminate F | destruct F as [F _]; discriminate F
      | discriminate F | destruct F as [F _]; discriminate F].
  - simpl. destruct (Qle_bool 0 c); simpl; split; intros F;
      [discriminate F | destruct F as [F _]; discriminate F
      | discriminate F | destruct F as [F _]; discriminate F].
  - simpl. split; intros F; [discriminate F | destruct F as [F _]; discriminate F].
Qed.

(** ** The trend series *)

(** The series is the callback mapped over the indices 0 to 20, for any
    arithmetic. *)
Lemma trendData_nth {number : Type} `{Arith number}
    (acquisitionCost laborCost materialCost : number) (i : nat) :
  (i <= 20)%nat ->
  let totalCost := (acquisitionCost + laborCost + materialCost)%js in
  let minPrice := (totalCost * num_lit 0.5)%js in
  let maxPrice := (totalCost * num_lit 2)%js in
  let stepSize := ((maxPrice - minPrice) / num_of_nat 20)%js in
  nth_error (trendData acquisitionCost laborCost materialCost) i =
  Some (trendPoint minPrice stepSize acquisitionCost laborCost materialCost i).
Proof.
  intros Hi. cbv zeta. unfold trendData.
  apply map_nth_error. rewrite nth_error_seq.
  destruct (Nat.ltb_spec i (20 + 1)) as [_|F]; [reflexivity | lia].
Qed.



(** The price of sample [i], as the source computes it at finite costs. *)
Lemma trendPoint_price (acquisitionCost laborCost materialCost : Q) (i : nat) :
  let totalCost := acquisitionCost + laborCost + materialCost in
  let total := (Fin acquisitionCost + Fin laborCost + Fin materialCost)%js in
  (total * num_lit 0.5
   + num_of_nat i
     * ((total * num_lit 2 - total * num_lit 0.5) / num_of_nat 20))%js
  = Fin (totalCost * 0.5
         + inject_Z (Z.of_nat i)
           * ((totalCost * 2 - totalCost * 0.5) / inject_Z 20)).
Proof. reflexivity. Qed.


(** C9, in exact arithmetic with IEEE division by zero.  At finite
    inputs the base cost is finite; the ratios and the profits are finite
    exactly when the base cost is not zero; the percentage of a party is
    finite exactly when the base cost and the cost of that party are not
    zero.  So when the three divisors are nonzero every numeric field of
    the result is finite, and a non-finite field only comes from a
    division by zero. *)
Theorem non_finite_only_by_zero_division :
  forall price acquisitionCost laborCost materialCost : Q,
  let totalCost := acquisitionCost + laborCost + materialCost in
  let investorCost := acquisitionCost + materialCost in
  let b :=
    bindings (Fin price) (Fin acquisitionCost) (Fin laborCost)
      (Fin materialCost) in
  let r :=
    calculateMetrics (Fin price) (Fin acquisitionCost) (Fin laborCost)
      (Fin materialCost) in
  isFinite (totalBaseCost r) = true /\
  (isFinite (b_investorRatio b) = true <-> ~ totalCost == 0) /\
  (isFinite (b_contractorRatio b) = true <-> ~ totalCost == 0) /\
  (isFinite (investorProfit r) = true <-> ~ totalCost == 0) /\
  (isFinite (contractorProfit r) = true <-> ~ totalCost == 0) /\
  (isFinite (investorProfitPercent r) = true <->
   ~ totalCost == 0 /\ ~ investorCost == 0) /\
  (isFinite (contractorProfitPercent r) = true <->
   ~ totalCost == 0 /\ ~ laborCost == 0) /\
  (~ totalCost == 0 -> ~ investorCost == 0 -> ~ laborCost == 0 ->
   isFinite (investorProfit r) = true /\
   isFinite (contractorProfit r) = true /\
   isFinite (investorProfitPercent r) = true /\
   isFinite (contractorProfitPercent r) = true /\
   isFinite (totalBaseCost r) = true).
Proof.
  intros price acquisitionCost laborCost materialCost totalCost investorCost
    b r.
  assert (IP : isFinite (investorProfit r) = true <-> ~ totalCost == 0).
  { subst r. unfold calculateMetrics.
    cbn [investorProfit num_add num_sub num_mul num_div xnum_arith].
    rewrite !xadd_fin, xsub_fin. fold totalCost.
    rewrite isFinite_xsub_fin, isFinite_xadd_fin, isFinite_xmul_fin.
    apply isFinite_xdiv_fin. }
  assert (CP : isFinite (contractorProfit r) = true <-> ~ totalCost == 0).
  { subst r. unfold calculateMetrics.
    cbn [contractorProfit num_add num_sub num_mul num_div xnum_arith].
    rewrite !xadd_fin, xsub_fin. fold totalCost.
    rewrite isFinite_xsub_fin, isFinite_xadd_fin, isFinite_xmul_fin.
    apply isFinite_xdiv_fin. }
  assert (IPP : isFinite (investorProfitPercent r) = true <->
                ~ totalCost == 0 /\ ~ investorCost == 0).
  { rewrite <- IP. subst r. unfold calculateMetrics.
    cbn [investorProfit investorProfitPercent
         num_add num_sub num_mul num_div num_lit xnum_arith].
    rewrite !xadd_fin. rewrite isFinite_xmul_fin. apply isFinite_xdiv. }
  assert (CPP : isFinite (contractorProfitPercent r) = true <->
                ~ totalCost == 0 /\ ~ laborCost == 0).
  { rewrite <- CP. subst r. unfold calculateMetrics.
    cbn [contractorProfit contractorProfitPercent
         num_add num_sub num_mul num_div num_lit xnum_arith].
    rewrite isFinite_xmul_fin. apply isFinite_xdiv. }
  split; [reflexivity|].
  split; [apply isFinite_xdiv_fin|].
  split; [apply isFinite_xdiv_fin|].
  split; [exact IP|]. split; [exact CP|].
  split; [exact IPP|]. split; [exact CPP|].
  intros HT HI HC.
  split; [now apply IP|]. split; [now apply CP|].
  split; [now apply IPP|]. split; [now apply CPP|reflexivity].
Qed.

(** ** Binary64 rounding and the conservation identity *)

(** C2, under binary64.  At price 230000000, acquisition 70000000, labor
    50000000 and material 60000000 the base cost is 180000000, not zero,
    and the margin is 50000000; the profits the code returns, about
    36111111.111111104 and 13888888.888888888, add up to a number that
    differs from the margin by 2^-27, about 7.45e-9, which is more than
    the tolerance 1e-9. *)
Lemma conservation_tolerance_exceeded_binary64 :
  let r :=
    calculateMetrics 230000000%float 70000000%float 50000000%float
      60000000%float in
  let margin := (230000000 - totalBaseCost r)%float in
  let tolerance := Binary64.of_Q (1 # 1000000000) in
  let difference :=
    PrimFloat.abs (investorProfit r + contractorProfit r - margin)%float in
  totalBaseCost r = 180000000%float /\
  margin = 50000000%float /\
  investorProfit r = 0x1.1381838e38e38p+25%float /\
  contractorProfit r = 0x1.a7daf1c71c71cp+23%float /\
  difference = 0x1p-27%float /\
  PrimFloat.leb difference tolerance = false.
Proof.
  repeat split; vm_compute; reflexivity.
Qed.

(** ** The exact model against binary64 *)

(** The special values of the exact model are those binary64 produces:
    a nonzero number over zero is an infinity of its sign, zero over zero
    is NaN, and so are an infinity times zero and the difference of two
    infinities. *)
Lemma special_values_as_binary64 :
  (xdiv (Fin 1) (Fin 0) = PInf /\ (1 / 0)%float = infinity) /\
  (xdiv (Fin (-1)) (Fin 0) = NInf /\ (-1 / 0)%float = neg_infinity) /\
  (xdiv (Fin 0) (Fin 0) = NaN /\ (0 / 0)%float = nan) /\
  (xmul PInf (Fin 0) = NaN /\ (infinity * 0)%float = nan) /\
  (xsub PInf PInf = NaN /\ (infinity - infinity)%float = nan) /\
  (xdiv (Fin 1) PInf = Fin 0 /\ (1 / infinity)%float = 0%float).
Proof. repeat split; vm_compute; reflexivity. Qed.

(** The degenerate scenario of the specification: with the three costs
    at zero the base cost is 0, and the profits and the percentages are
    NaN, in the exact model and in binary64 alike. *)
Lemma degenerate_scenario :
  (let r := calculateMetrics (Fin 200) (Fin 0) (Fin 0) (Fin 0) in
   totalBaseCost r = Fin 0 /\
   investorProfit r = NaN /\ contractorProfit r = NaN /\
   investorProfitPercent r = NaN /\ contractorProfitPercent r = NaN) /\
  (let r := calculateMetrics 200%float 0%float 0%float 0%float in
   totalBaseCost r = 0%float /\
   investorProfit r = nan /\ contractorProfit r = nan /\
   investorProfitPercent r = nan /\ contractorProfitPercent r = nan).
Proof. repeat split; vm_compute; reflexivity. Qed.

(** A party without cost: the profits are finite and the percentage of
    that party is NaN, in both models. *)
Lemma zero_cost_scenario :
  (let r := calculateMetrics (Fin 200) (Fin 80) (Fin 0) (Fin 40) in
   xeq (investorProfit r) (Fin 80) /\ xeq (contractorProfit r) (Fin 0) /\
   contractorProfitPercent r = NaN) /\
  (let r := calculateMetrics 200%float 80%float 0%float 40%float in
   investorProfit r = 80%float /\ contractorProfit r = 0%float /\
   contractorProfitPercent r = nan).
Proof. repeat split; vm_compute; reflexivity. Qed.

(** ** Where binary64 departs from exact arithmetic

    The program computes on binary64 numbers.  Each lemma below evaluates
    the code there, at inputs that are binary64 numbers themselves (or
    decimal literals, read as the language reads them). *)

(** C1, under binary64.  At price 160 + 2^-45 (the number after 160) and
    costs 80, 40, 40 the ratio is 0.75 and the margin 2^-45, both exact,
    so ratio * margin is 0.75 * 2^-45, a binary64 number; the code
    returns investorProfit = 2^-45, a third more: the detour through
    cost + ratio * margin rounds. *)
Lemma ratio_times_margin_rounded_binary64 :
  let price := PrimFloat.next_up 160%float in
  let b := bindings price 80%float 40%float 40%float in
  let r := calculateMetrics price 80%float 40%float 40%float in
  PrimFloat.eqb (totalBaseCost r) 0%float = false /\
  b_investorRatio b = 0.75%float /\
  b_margin b = 0x1p-45%float /\
  (b_investorRatio b * b_margin b)%float = 0x1.8p-46%float /\
  investorProfit r = 0x1p-45%float /\
  PrimFloat.eqb (investorProfit r) (b_investorRatio b * b_margin b)%float
    = false.
Proof. repeat split; vm_compute; reflexivity. Qed.

(** C3, under binary64.  At costs 0.1, 0.1, 0.4 the base cost is not
    zero, and the ratios the code computes, about 0.8333333333333333 and
    0.16666666666666666, add up to 0.9999999999999999, which is less
    than 1. *)
Lemma ratio_sum_rounded_binary64 :
  let b :=
    bindings 1%float (num_lit 0.1) (num_lit 0.1) (num_lit 0.4)
      : Bindings float in
  PrimFloat.eqb (b_totalBaseCost b) 0%float = false /\
  (b_investorRatio b + b_contractorRatio b)%float = 0x1.fffffffffffffp-1%float /\
  PrimFloat.eqb (b_investorRatio b + b_contractorRatio b)%float 1%float
    = false /\
  PrimFloat.ltb (b_investorRatio b + b_contractorRatio b)%float 1%float
    = true.
Proof. repeat split; vm_compute; reflexivity. Qed.

(** C4, under binary64.  With the factor 3 at price 200 and costs 10, 20,
    25 (base cost 55, not zero), the contractorProfit of the scaled call,
    about 158.18181818181819, is not 3 times the contractorProfit of the
    call itself, about 158.18181818181816. *)
Lemma scaling_rounded_binary64 :
  let k := 3%float in
  let r := calculateMetrics 200%float 10%float 20%float 25%float in
  let rk :=
    calculateMetrics (k * 200)%float (k * 10)%float (k * 20)%float
      (k * 25)%float in
  totalBaseCost r = 55%float /\
  PrimFloat.ltb 0%float k = true /\
  PrimFloat.eqb (contractorProfit rk) (k * contractorProfit r)%float = false /\
  PrimFloat.ltb (k * contractorProfit r)%float (contractorProfit rk) = true.
Proof. repeat split; vm_compute; reflexivity. Qed.

(** C5, under binary64.  At costs 80, 40, 40 the investor's ratio is 0.75,
    positive.  The second and the third binary64 number after 200, about
    200.00000000000006 and 200.00000000000009, are two prices in strict
    order at which the code returns the same investorProfit: the profit
    is not strictly increasing. *)
Lemma price_increase_absorbed_binary64 :
  let price1 := PrimFloat.next_up (PrimFloat.next_up 200%float) in
  let price2 := PrimFloat.next_up price1 in
  let b := bindings price1 80%float 40%float 40%float in
  let r1 := calculateMetrics price1 80%float 40%float 40%float in
  let r2 := calculateMetrics price2 80%float 40%float 40%float in
  PrimFloat.ltb price1 price2 = true /\
  totalBaseCost r1 = 160%float /\
  b_investorRatio b = 0.75%float /\
  investorProfit r1 = investorProfit r2 /\
  PrimFloat.ltb (investorProfit r1) (investorProfit r2) = false.
Proof. repeat split; vm_compute; reflexivity. Qed.



(** C9, under binary64.  At price 2^1023 and costs 1, 1, 1 the base cost
    is 3, the investor's cost 2 and the contractor's cost 1: no divisor
    is zero.  The profits are finite, but both percentages overflow to
    Infinity. *)
Lemma overflow_without_zero_divisor_binary64 :
  let b := bindings 0x1p+1023%float 1%float 1%float 1%float in
  let r := calculateMetrics 0x1p+1023%float 1%float 1%float 1%float in
  b_totalBaseCost b = 3%float /\
  b_investorCosts b = 2%float /\
  b_contractorCosts b = 1%float /\
  Binary64.isFinite (investorProfit r) = true /\
  Binary64.isFinite (contractorProfit r) = true /\
  investorProfitPercent r = infinity /\
  contractorProfitPercent r = infinity /\
  Binary64.isFinite (investorProfitPercent r) = false /\
  Binary64.isFinite (contractorProfitPercent r) = false.
Proof. repeat split; vm_compute; reflexivity. Qed.

(** C10, under binary64.  At price 200 and costs 10, 20, 25 no divisor is
    zero (base cost 55, investor's cost 35, labor 20), and the code
    returns investorProfitPercent about 263.63636363636363 and
    contractorProfitPercent about 263.63636363636357: they differ. *)
Lemma percentages_differ_binary64 :
  let b := bindings 200%float 10%float 20%float 25%float in
  let r := calculateMetrics 200%float 10%float 20%float 25%float in
  b_totalBaseCost b = 55%float /\
  b_investorCosts b = 35%float /\
  b_contractorCosts b = 20%float /\
  PrimFloat.eqb (investorProfitPercent r) (contractorProfitPercent r)
    = false /\
  PrimFloat.ltb (contractorProfitPercent r) (investorProfitPercent r) = true.
Proof. repeat split; vm_compute; reflexivity. Qed.

(** ** Instances

    The theorems above that rest on a hypothesis, applied at concrete
    inputs where the hypothesis is settled by evaluation. *)

(** Settles that a concrete rational is not zero. *)
Ltac Qnonzero := let E := fresh "E" in intro E; vm_compute in E; discriminate E.

Lemma calculateMetrics_ratio_times_margin_witness :
  ~ 80 + 40 + 40 == 0 /\
  ~ 80 + 40 == 0 /\
  let r := calculateMetrics (Fin 200) (Fin 80) (Fin 40) (Fin 40) in
  xeq (investorProfit r)
      (Fin ((80 + 40) / (80 + 40 + 40) * (200 - (80 + 40 + 40)))) /\
  xeq (investorProfitPercent r)
      (Fin ((80 + 40) / (80 + 40 + 40) * (200 - (80 + 40 + 40))
            / (80 + 40) * 100)) /\
  metrics_eq r (allocate (Fin 200) (Fin 80) (Fin 40) (Fin 40)).
Proof.
  assert (N : ~ 80 + 40 + 40 == 0) by Qnonzero.
  assert (M : ~ 80 + 40 == 0) by Qnonzero.
  split; [exact N|]. split; [exact M|].
  destruct (calculateMetrics_ratio_times_margin 200 80 40 40 N)
    as (I & _ & P & _ & A).
  split; [exact I|]. split; [exact (P M) | exact A].
Defined.

Lemma conservation_exact_witness :
  ~ 80 + 40 + 40 == 0 /\
  let r := calculateMetrics (Fin 200) (Fin 80) (Fin 40) (Fin 40) in
  xeq (xadd (investorProfit r) (contractorProfit r))
      (Fin (200 - (80 + 40 + 40))).
Proof.
  assert (N : ~ 80 + 40 + 40 == 0) by Qnonzero.
  split; [exact N | exact (conservation_exact 200 80 40 40 N)].
Defined.

Lemma ratio_partition_witness :
  ~ 80 + 40 + 40 == 0 /\
  let b := bindings (Fin 200) (Fin 80) (Fin 40) (Fin 40) in
  xeq (xadd (b_investorRatio b) (b_contractorRatio b)) (Fin 1).
Proof.
  assert (N : ~ 80 + 40 + 40 == 0) by Qnonzero.
  split; [exact N|].
  exact (proj1 (proj2 (proj2 (ratio_partition 200 80 40 40 N)))).
Defined.

Lemma equal_percent_return_witness :
  ~ 80 + 40 + 40 == 0 /\ ~ 80 + 40 == 0 /\ ~ 40 == 0 /\
  let r := calculateMetrics (Fin 200) (Fin 80) (Fin 40) (Fin 40) in
  xeq (investorProfitPercent r) (contractorProfitPercent r).
Proof.
  assert (N : ~ 80 + 40 + 40 == 0) by Qnonzero.
  assert (NI : ~ 80 + 40 == 0) by Qnonzero.
  assert (NC : ~ 40 == 0) by Qnonzero.
  split; [exact N|]. split; [exact NI|]. split; [exact NC|].
  exact (proj1 (equal_percent_return 200 80 40 40 N NI NC)).
Defined.

Lemma scaling_homogeneous_witness :
  ~ 80 + 40 + 40 == 0 /\ 0 < 3 /\
  let r := calculateMetrics (Fin 200) (Fin 80) (Fin 40) (Fin 40) in
  let rk :=
    calculateMetrics (Fin 3 * Fin 200)%js (Fin 3 * Fin 80)%js
      (Fin 3 * Fin 40)%js (Fin 3 * Fin 40)%js in
  xeq (investorProfit rk) (Fin 3 * investorProfit r)%js /\
  xeq (contractorProfit rk) (Fin 3 * contractorProfit r)%js.
Proof.
  assert (N : ~ 80 + 40 + 40 == 0) by Qnonzero.
  assert (K : 0 < 3) by reflexivity.
  split; [exact N|]. split; [exact K|].
  exact (scaling_homogeneous 3 200 80 40 40 N K).
Defined.

Lemma profit_strictly_increasing_in_price_witness :
  ~ 80 + 40 + 40 == 0 /\ 200 < 250 /\
  let b := bindings (Fin 200) (Fin 80) (Fin 40) (Fin 40) in
  let r1 := calculateMetrics (Fin 200) (Fin 80) (Fin 40) (Fin 40) in
  let r2 := calculateMetrics (Fin 250) (Fin 80) (Fin 40) (Fin 40) in
  xltb (Fin 0) (b_investorRatio b) = true /\
  xltb (Fin 0) (b_contractorRatio b) = true /\
  xltb (investorProfit r1) (investorProfit r2) = true /\
  xltb (contractorProfit r1) (contractorProfit r2) = true.
Proof.
  assert (N : ~ 80 + 40 + 40 == 0) by Qnonzero.
  assert (P : 200 < 250) by reflexivity.
  split; [exact N|]. split; [exact P|].
  destruct (profit_strictly_increasing_in_price 200 250 80 40 40 N P)
    as (_ & _ & I & C).
  assert (RI : xltb (Fin 0)
                 (b_investorRatio
                    (bindings (Fin 200) (Fin 80) (Fin 40) (Fin 40))) = true)
    by reflexivity.
  assert (RC : xltb (Fin 0)
                 (b_contractorRatio
                    (bindings (Fin 200) (Fin 80) (Fin 40) (Fin 40))) = true)
    by reflexivity.
  split; [exact RI|]. split; [exact RC|].
  split; [exact (I RI) | exact (C RC)].
Defined.



Lemma non_finite_only_by_zero_division_witness :
  ~ 80 + 40 + 40 == 0 /\ ~ 80 + 40 == 0 /\ ~ 40 == 0 /\
  let r := calculateMetrics (Fin 200) (Fin 80) (Fin 40) (Fin 40) in
  isFinite (investorProfit r) = true /\
  isFinite (contractorProfit r) = true /\
  isFinite (investorProfitPercent r) = true /\
  isFinite (contractorProfitPercent r) = true /\
  isFinite (totalBaseCost r) = true.
Proof.
  assert (N : ~ 80 + 40 + 40 == 0) by Qnonzero.
  assert (NI : ~ 80 + 40 == 0) by Qnonzero.
  assert (NC : ~ 40 == 0) by Qnonzero.
  split; [exact N|]. split; [exact NI|]. split; [exact NC|].
  destruct (non_finite_only_by_zero_division 200 80 40 40)
    as (_ & _ & _ & _ & _ & _ & _ & F).
  exact (F N NI NC).
Defined.

(** * Properties of the presentation layer *)

(** Reduces the operators and the record fields of the presentation code
    at finite arguments. *)
Ltac view_arith :=
  cbn [num_add num_sub num_mul num_div num_lit num_lt num_ge num_seq
       xnum_arith xnum_compare
       investorProfit contractorProfit investorProfitPercent
       contractorProfitPercent totalBaseCost investorRatio contractorRatio
       sliderRange salePricePercent baseCostPercent profitPercentage
       priceDisplay markerLeft thumbLabelLeft thumbLabel
       metrics dash_totalBaseCost contractorRevenue investorCapitalAtRisk
       totalLoss salePriceMin salePriceMax dash_trendData combinedProfitData
       percentageData salePriceSlider];
  repeat first
    [ rewrite xadd_fin | rewrite xsub_fin | rewrite xmul_fin
    | rewrite xdiv_fin by assumption ].

Lemma xgeb_fin (p q : Q) : xgeb (Fin p) (Fin q) = true <-> q <= p.
Proof.
  unfold xgeb. simpl. rewrite Qle_alt.
  rewrite <- (Qcompare_antisym p q).
  destruct (p ?= q); simpl; split; intros E; congruence.
Qed.

(** The slider of the dashboard spans 0.7 times the base cost. *)
Lemma slider_span_nonzero (t : Q) : ~ t == 0 -> ~ t * 1.5 - t * 0.8 == 0.
Proof. intros N E. apply N. lra. Qed.

(** ** The sale price slider *)

Section SliderFinite.

Variables value min max baseCost : Q.

Local Abbreviation view :=
  (SalePriceSlider (Fin value) (Fin min) (Fin max) (Fin baseCost)).

Lemma SalePriceSlider_salePricePercent :
  ~ max - min == 0 ->
  salePricePercent view = Fin ((value - min) / (max - min) * 100).
Proof. intros N. unfold SalePriceSlider. view_arith. reflexivity. Qed.

Lemma SalePriceSlider_baseCostPercent :
  ~ max - min == 0 ->
  baseCostPercent view = Fin ((baseCost - min) / (max - min) * 100).
Proof. intros N. unfold SalePriceSlider. view_arith. reflexivity. Qed.

Lemma SalePriceSlider_profitPercentage :
  ~ baseCost == 0 ->
  profitPercentage view = Fin ((value - baseCost) / baseCost * 100).
Proof. intros N. unfold SalePriceSlider. view_arith. reflexivity. Qed.

End SliderFinite.

(** A position along the track, in percent, is between 0 and 100 exactly
    when the value is between the ends of the track. *)
Lemma percent_in_track (v lo hi : Q) :
  lo < hi ->
  (0 <= (v - lo) / (hi - lo) * 100 /\ (v - lo) / (hi - lo) * 100 <= 100
   <-> lo <= v /\ v <= hi).
Proof.
  intros L.
  assert (N : ~ hi - lo == 0) by (intros E; lra).
  assert (E : (v - lo) / (hi - lo) * (hi - lo) == v - lo) by (field; exact N).
  set (r := (v - lo) / (hi - lo)) in *.
  split; intros [A B]; split; nra.
Qed.

(** ** The dashboard *)

Section DashboardFinite.

Variables price acquisitionCost laborCost materialCost : Q.

Local Abbreviation totalCost := (acquisitionCost + laborCost + materialCost).
Local Abbreviation investorCost := (acquisitionCost + materialCost).
Local Abbreviation dash :=
  (ProfitSharingDashboard (Fin price) (Fin acquisitionCost) (Fin laborCost)
     (Fin materialCost)).
Local Abbreviation result :=
  (calculateMetrics (Fin price) (Fin acquisitionCost) (Fin laborCost)
     (Fin materialCost)).
Local Abbreviation consts :=
  (bindings (Fin price) (Fin acquisitionCost) (Fin laborCost)
     (Fin materialCost)).

(** The slider the dashboard renders runs from 0.8 to 1.5 times the base
    cost and marks the base cost. *)
Lemma dashboard_slider :
  salePriceSlider dash =
  SalePriceSlider (Fin price) (Fin (totalCost * 0.8)) (Fin (totalCost * 1.5))
    (Fin totalCost).
Proof. reflexivity. Qed.

(** X1.  Whatever the costs and the price, as long as the base cost is not
    zero the marker of the base cost sits at 200/7 percent (about 28.57%)
    of the slider's track. *)
Theorem base_cost_marker_position :
  ~ totalCost == 0 ->
  xeq (baseCostPercent (salePriceSlider dash)) (Fin (200 # 7)) /\
  markerLeft (salePriceSlider dash) =
    [Str (baseCostPercent (salePriceSlider dash)); Lit "%"%string].
Proof.
  intros N. split; [|reflexivity].
  rewrite dashboard_slider.
  rewrite SalePriceSlider_baseCostPercent by (apply slider_span_nonzero; exact N).
  simpl. field. apply slider_span_nonzero in N. lra.
Qed.

(** X2.  When the base cost and the cost of each party are not zero, the
    percentage shown over the thumb of the slider is the percentage of
    both bars of the percentage chart. *)
Theorem slider_label_matches_percentage_chart :
  ~ totalCost == 0 -> ~ investorCost == 0 -> ~ laborCost == 0 ->
  Forall
    (fun row => xeq (percentage row) (profitPercentage (salePriceSlider dash)))
    (percentageData dash) /\
  map (@pct_name xnum) (percentageData dash)
    = ["Investor"%string; "Contractor"%string].
Proof.
  intros N NI NC. split; [|reflexivity].
  rewrite dashboard_slider, (SalePriceSlider_profitPercentage _ _ _ _ N).
  unfold ProfitSharingDashboard. cbn [percentageData].
  apply Forall_cons; [|apply Forall_cons; [|apply Forall_nil]];
    cbn [percentage].
  - rewrite (investorProfitPercent_fin _ _ _ _ N NI). simpl.
    field. split; assumption.
  - rewrite (contractorProfitPercent_fin _ _ _ _ N NC). simpl.
    field. split; assumption.
Qed.

(** X11.  Each of the three numbers the slider computes (the position of
    the thumb, the position of the marker, the percentage of the label) is
    finite exactly when the base cost is not zero. *)
Theorem slider_finite_iff_base_cost_nonzero :
  (isFinite (salePricePercent (salePriceSlider dash)) = true
   <-> ~ totalCost == 0) /\
  (isFinite (baseCostPercent (salePriceSlider dash)) = true
   <-> ~ totalCost == 0) /\
  (isFinite (profitPercentage (salePriceSlider dash)) = true
   <-> ~ totalCost == 0).
Proof.
  assert (S : ~ totalCost * 1.5 - totalCost * 0.8 == 0 <-> ~ totalCost == 0).
  { split; intros N E; apply N; lra. }
  rewrite dashboard_slider. unfold SalePriceSlider.
  cbn [salePricePercent baseCostPercent profitPercentage
       num_sub num_mul num_div num_lit xnum_arith].
  rewrite !xsub_fin, !isFinite_xmul_fin, !isFinite_xdiv_fin.
  split; [exact S | split; [exact S | reflexivity]].
Qed.

(** X14.  [totalLoss] is the margin, price minus base cost; it is the sum
    of the two profits.  With a positive base cost, the label over the
    thumb starts with a plus sign exactly when the price is at least the
    base cost, that is when [totalLoss] is not negative. *)
Theorem slider_label_sign :
  0 < totalCost ->
  xeq (totalLoss dash) (Fin (price - totalCost)) /\
  xeq (totalLoss dash)
      (xadd (investorProfit (metrics dash)) (contractorProfit (metrics dash))) /\
  exists sign : String.string,
    thumbLabel (salePriceSlider dash) =
      [Lit sign; Num (toFixed (profitPercentage (salePriceSlider dash)) 0);
       Lit "%"%string] /\
    (sign = "+"%string <-> totalCost <= price) /\
    (sign = "+"%string <-> xgeb (totalLoss dash) (Fin 0) = true).
Proof.
  intros P.
  assert (N : ~ totalCost == 0) by (intros E; lra).
  split; [reflexivity|]. split.
  - unfold ProfitSharingDashboard. cbn [metrics totalLoss].
    rewrite (investorProfit_fin _ _ _ _ N), (contractorProfit_fin _ _ _ _ N).
    simpl. field. exact N.
  - rewrite dashboard_slider. unfold SalePriceSlider at 1.
    cbn [thumbLabel]. eexists. split; [reflexivity|].
    change (totalLoss dash) with (Fin (price - totalCost)).
    cbn [num_sub num_mul num_div num_lit num_ge xnum_arith xnum_compare].
    rewrite xsub_fin, (xdiv_fin _ _ N), xmul_fin.
    assert (E : (price - totalCost) / totalCost * totalCost
                == price - totalCost) by (field; exact N).
    set (r := (price - totalCost) / totalCost) in *.
    destruct (xgeb (Fin (r * 100)) (Fin 0)) eqn:G.
    + apply xgeb_fin in G.
      assert (L : totalCost <= price) by nra.
      split; split; intros _; try reflexivity; try exact L.
      apply xgeb_fin. lra.
    + assert (L : ~ 0 <= r * 100)
        by (intros L; apply xgeb_fin in L; congruence).
      assert (L' : price < totalCost) by nra.
      split; split; intros F; try discriminate F; exfalso.
      * lra.
      * apply xgeb_fin in F. lra.
Qed.

(** X4.  With a nonzero base cost the two distributions add up to the
    price: the investor receives the investor's share of the price and
    the contractor the labor share.  The contractor revenue the dashboard
    shows is that distribution. *)
Theorem price_fully_distributed :
  ~ totalCost == 0 ->
  xeq (xadd (b_investorDistribution consts) (b_contractorDistribution consts))
      (Fin price) /\
  xeq (b_investorDistribution consts) (Fin (investorCost / totalCost * price)) /\
  xeq (b_contractorDistribution consts) (Fin (laborCost / totalCost * price)) /\
  xeq (contractorRevenue dash) (b_contractorDistribution consts).
Proof.
  intros N. rewrite (bindings_fin _ _ _ _ N).
  cbn [b_investorDistribution b_contractorDistribution].
  unfold ProfitSharingDashboard. cbn [contractorRevenue].
  rewrite (contractorProfit_fin _ _ _ _ N).
  simpl. repeat split; field; exact N.
Qed.

End DashboardFinite.

(** X3.  On a slider whose track runs from [min] up to a larger [max],
    the thumb label is placed between 0% and 100% of the track exactly
    when the value lies between [min] and [max], and the marker exactly
    when the base cost does.  The component does not clamp either. *)
Theorem slider_positions_inside_track_iff (value min max baseCost : Q) :
  min < max ->
  let view :=
    SalePriceSlider (Fin value) (Fin min) (Fin max) (Fin baseCost) in
  exists thumb marker : Q,
    salePricePercent view = Fin thumb /\
    baseCostPercent view = Fin marker /\
    (0 <= thumb /\ thumb <= 100 <-> min <= value /\ value <= max) /\
    (0 <= marker /\ marker <= 100 <-> min <= baseCost /\ baseCost <= max).
Proof.
  intros L view. subst view.
  assert (N : ~ max - min == 0) by (intros E; lra).
  do 2 eexists.
  split; [apply (SalePriceSlider_salePricePercent _ _ _ _ N)|].
  split; [apply (SalePriceSlider_baseCostPercent _ _ _ _ N)|].
  split; apply percent_in_track; exact L.
Qed.

(** X13.  With a positive base cost the track of the dashboard's slider
    starts below the base cost and ends above it, and the trend series
    starts below the track and ends above it.  The thumb label is on the
    track exactly when the price is between 0.8 and 1.5 times the base
    cost, which the state is not held to. *)
Theorem slider_track_brackets_base_cost
    (price acquisitionCost laborCost materialCost : Q) :
  let totalCost := acquisitionCost + laborCost + materialCost in
  let dash :=
    ProfitSharingDashboard (Fin price) (Fin acquisitionCost) (Fin laborCost)
      (Fin materialCost) in
  0 < totalCost ->
  xltb (salePriceMin dash) (dash_totalBaseCost dash) = true /\
  xltb (dash_totalBaseCost dash) (salePriceMax dash) = true /\
  (exists first last : TrendPoint xnum,
     nth_error (dash_trendData dash) 0 = Some first /\
     nth_error (dash_trendData dash) 20 = Some last /\
     xltb (salePrice first) (salePriceMin dash) = true /\
     xltb (salePriceMax dash) (salePrice last) = true) /\
  (exists thumb : Q,
     salePricePercent (salePriceSlider dash) = Fin thumb /\
     (0 <= thumb /\ thumb <= 100
      <-> totalCost * 0.8 <= price /\ price <= totalCost * 1.5)).
Proof.
  cbv zeta. intros P.
  set (T := acquisitionCost + laborCost + materialCost) in *.
  assert (L : T * 0.8 < T * 1.5) by lra.
  assert (Emin : salePriceMin
                   (ProfitSharingDashboard (Fin price) (Fin acquisitionCost)
                      (Fin laborCost) (Fin materialCost)) = Fin (T * 0.8))
    by reflexivity.
  assert (Emax : salePriceMax
                   (ProfitSharingDashboard (Fin price) (Fin acquisitionCost)
                      (Fin laborCost) (Fin materialCost)) = Fin (T * 1.5))
    by reflexivity.
  assert (Ebase : dash_totalBaseCost
                    (ProfitSharingDashboard (Fin price) (Fin acquisitionCost)
                       (Fin laborCost) (Fin materialCost)) = Fin T)
    by reflexivity.
  rewrite Emin, Emax, Ebase.
  split; [apply xltb_fin; lra|]. split; [apply xltb_fin; lra|]. split.
  - do 2 eexists.
    split; [apply (trendData_nth _ _ _ 0%nat); lia|].
    split; [apply (trendData_nth _ _ _ 20%nat); lia|].
    unfold trendPoint. cbn [salePrice].
    rewrite !(trendPoint_price acquisitionCost laborCost materialCost).
    cbv zeta. fold T.
    split; apply xltb_fin.
    + change (inject_Z (Z.of_nat 0)) with 0.
      setoid_replace (T * 0.5 + 0 * ((T * 2 - T * 0.5) / inject_Z 20))
        with (T * 0.5) by field.
      lra.
    + change (inject_Z (Z.of_nat 20)) with (inject_Z 20).
      setoid_replace (T * 0.5 + inject_Z 20 * ((T * 2 - T * 0.5) / inject_Z 20))
        with (T * 2) by field.
      lra.
  - assert (N : ~ T * 1.5 - T * 0.8 == 0) by (intros E; lra).
    eexists. split.
    + rewrite dashboard_slider. fold T.
      apply (SalePriceSlider_salePricePercent _ _ _ _ N).
    + apply percent_in_track. exact L.
Qed.

(** X12.  While the three costs stay within the ranges of their sliders
    (acquisition 10 to 120, labor 20 to 80, material 20 to 80) the base
    cost is between 50 and 280, no divisor is zero, and every number of
    the result record and of the sale price slider is finite, whatever
    the price. *)
Theorem cost_sliders_keep_results_finite
    (price acquisitionCost laborCost materialCost : Q) :
  let within (range : xnum * xnum) (cost : Q) :=
    xgeb (Fin cost) (fst range) = true /\ xgeb (snd range) (Fin cost) = true in
  let r :=
    calculateMetrics (Fin price) (Fin acquisitionCost) (Fin laborCost)
      (Fin materialCost) in
  let view :=
    salePriceSlider
      (ProfitSharingDashboard (Fin price) (Fin acquisitionCost)
         (Fin laborCost) (Fin materialCost)) in
  within acquisitionCostRange acquisitionCost ->
  within laborCostRange laborCost ->
  within materialCostRange materialCost ->
  50 <= acquisitionCost + laborCost + materialCost /\
  acquisitionCost + laborCost + materialCost <= 280 /\
  isFinite (investorProfit r) = true /\
  isFinite (contractorProfit r) = true /\
  isFinite (investorProfitPercent r) = true /\
  isFinite (contractorProfitPercent r) = true /\
  isFinite (totalBaseCost r) = true /\
  isFinite (salePricePercent view) = true /\
  isFinite (baseCostPercent view) = true /\
  isFinite (profitPercentage view) = true.
Proof.
  intros within r view [A1 A2] [L1 L2] [M1 M2]. subst r view.
  unfold acquisitionCostRange, laborCostRange, materialCostRange in *.
  cbn [fst snd num_lit xnum_arith] in *.
  apply xgeb_fin in A1, A2, L1, L2, M1, M2.
  assert (N : ~ acquisitionCost + laborCost + materialCost == 0)
    by (intros E; lra).
  assert (NI : ~ acquisitionCost + materialCost == 0) by (intros E; lra).
  assert (NC : ~ laborCost == 0) by (intros E; lra).
  assert (NS : ~ (acquisitionCost + laborCost + materialCost) * 1.5
                 - (acquisitionCost + laborCost + materialCost) * 0.8 == 0)
    by (apply slider_span_nonzero; exact N).
  split; [lra|]. split; [lra|].
  rewrite (investorProfit_fin _ _ _ _ N), (contractorProfit_fin _ _ _ _ N).
  rewrite (investorProfitPercent_fin _ _ _ _ N NI).
  rewrite (contractorProfitPercent_fin _ _ _ _ N NC).
  rewrite dashboard_slider.
  rewrite (SalePriceSlider_salePricePercent _ _ _ _ NS).
  rewrite (SalePriceSlider_baseCostPercent _ _ _ _ NS).
  rewrite (SalePriceSlider_profitPercentage _ _ _ _ N).
  repeat split; reflexivity.
Qed.

(** ** The samples of the trend series *)

Lemma inject_Z_of_nat_le (i n : nat) :
  (i <= n)%nat -> inject_Z (Z.of_nat i) <= inject_Z (Z.of_nat n).
Proof. intros L. rewrite <- Zle_Qle. lia. Qed.

Lemma inject_Z_of_nat_nonneg (i : nat) : 0 <= inject_Z (Z.of_nat i).
Proof. apply (inject_Z_of_nat_le 0 i). lia. Qed.

Section TrendSamples.

Variables acquisitionCost laborCost materialCost : Q.
Variable i : nat.

Local Abbreviation totalCost := (acquisitionCost + laborCost + materialCost).
Local Abbreviation investorCost := (acquisitionCost + materialCost).
Local Abbreviation index := (inject_Z (Z.of_nat i)).
Local Abbreviation samplePrice :=
  (totalCost * 0.5 + index * ((totalCost * 2 - totalCost * 0.5) / inject_Z 20)).

(** Sample [i] of the series at finite costs: its price, and the result
    of [calculateMetrics] at that price. *)
Lemma trendData_sample :
  (i <= 20)%nat ->
  exists pt : TrendPoint xnum,
    nth_error (trendData (Fin acquisitionCost) (Fin laborCost)
                 (Fin materialCost)) i = Some pt /\
    let r :=
      calculateMetrics (Fin samplePrice) (Fin acquisitionCost)
        (Fin laborCost) (Fin materialCost) in
    salePrice pt = Fin samplePrice /\
    pt_investorProfit pt = investorProfit r /\
    pt_contractorProfit pt = contractorProfit r /\
    pt_investorProfitPercent pt = investorProfitPercent r /\
    pt_contractorProfitPercent pt = contractorProfitPercent r /\
    pt_contractorRevenue pt = xadd (Fin laborCost) (contractorProfit r).
Proof.
  intros Hi. eexists. split; [apply (trendData_nth _ _ _ i Hi)|].
  cbv zeta. unfold trendPoint.
  cbn [salePrice pt_investorProfit pt_contractorProfit
       pt_investorProfitPercent pt_contractorProfitPercent
       pt_contractorRevenue].
  rewrite (trendPoint_price acquisitionCost laborCost materialCost i).
  repeat split; reflexivity.
Qed.

(** X5.  When the base cost and the cost of each party are not zero, the
    two percentages of sample [i] of the trend series are both
    7.5 * i - 50, whatever the costs: from -50% at the first sample to
    +100% at the last. *)
Theorem trend_percentages_do_not_depend_on_costs :
  ~ totalCost == 0 -> ~ investorCost == 0 -> ~ laborCost == 0 ->
  (i <= 20)%nat ->
  exists pt : TrendPoint xnum,
    nth_error (trendData (Fin acquisitionCost) (Fin laborCost)
                 (Fin materialCost)) i = Some pt /\
    xeq (pt_investorProfitPercent pt) (Fin (7.5 * index - 50)) /\
    xeq (pt_contractorProfitPercent pt) (Fin (7.5 * index - 50)).
Proof.
  intros N NI NC Hi.
  destruct (trendData_sample Hi) as (pt & Hn & _ & _ & _ & HI & HC & _).
  exists pt. split; [exact Hn|].
  rewrite HI, HC.
  rewrite (investorProfitPercent_fin _ _ _ _ N NI).
  rewrite (contractorProfitPercent_fin _ _ _ _ N NC).
  simpl. split; field; split; assumption.
Qed.

(** X6.  With a nonzero base cost, sample [i] of the trend series has the
    price totalCost * (0.5 + 0.075 * i), the profits
    cost * (0.075 * i - 0.5) of each party, and the contractor revenue
    laborCost * (0.5 + 0.075 * i): every amount is the party's cost times
    a factor that only depends on the index. *)
Theorem trend_amounts_closed_form :
  ~ totalCost == 0 ->
  (i <= 20)%nat ->
  exists pt : TrendPoint xnum,
    nth_error (trendData (Fin acquisitionCost) (Fin laborCost)
                 (Fin materialCost)) i = Some pt /\
    xeq (salePrice pt) (Fin (totalCost * (0.5 + 0.075 * index))) /\
    xeq (pt_investorProfit pt) (Fin (investorCost * (0.075 * index - 0.5))) /\
    xeq (pt_contractorProfit pt) (Fin (laborCost * (0.075 * index - 0.5))) /\
    xeq (pt_contractorRevenue pt) (Fin (laborCost * (0.5 + 0.075 * index))).
Proof.
  intros N Hi.
  destruct (trendData_sample Hi) as (pt & Hn & HP & HI & HC & _ & _ & HR).
  exists pt. split; [exact Hn|].
  rewrite HP, HI, HC, HR.
  rewrite (investorProfit_fin _ _ _ _ N), (contractorProfit_fin _ _ _ _ N).
  simpl. repeat split; field; exact N.
Qed.

(** X7.  When both parties bear a positive cost, the samples 0 to 6 of
    the trend series are losses for both parties and the samples 7 to 20
    are profits for both: the series crosses break-even between its
    seventh and eighth sample, and no sample has a zero profit. *)
Theorem trend_break_even_between_samples :
  0 < investorCost -> 0 < laborCost ->
  (i <= 20)%nat ->
  exists pt : TrendPoint xnum,
    nth_error (trendData (Fin acquisitionCost) (Fin laborCost)
                 (Fin materialCost)) i = Some pt /\
    ((i <= 6)%nat ->
     xltb (pt_investorProfit pt) (Fin 0) = true /\
     xltb (pt_contractorProfit pt) (Fin 0) = true) /\
    ((7 <= i)%nat ->
     xltb (Fin 0) (pt_investorProfit pt) = true /\
     xltb (Fin 0) (pt_contractorProfit pt) = true) /\
    xseqb (pt_investorProfit pt) (Fin 0) = false /\
    xseqb (pt_contractorProfit pt) (Fin 0) = false.
Proof.
  intros PI PC Hi.
  assert (N : ~ totalCost == 0) by (intros E; lra).
  destruct (trendData_sample Hi) as (pt & Hn & _ & HI & HC & _).
  exists pt. split; [exact Hn|].
  rewrite HI, HC.
  rewrite (investorProfit_fin _ _ _ _ N), (contractorProfit_fin _ _ _ _ N).
  assert (EI : investorCost + investorCost / totalCost * (samplePrice - totalCost)
               - investorCost == investorCost * (0.075 * index - 0.5))
    by (field; exact N).
  assert (EC : laborCost + laborCost / totalCost * (samplePrice - totalCost)
               - laborCost == laborCost * (0.075 * index - 0.5))
    by (field; exact N).
  set (ip := investorCost + investorCost / totalCost * (samplePrice - totalCost)
             - investorCost) in *.
  set (cp := laborCost + laborCost / totalCost * (samplePrice - totalCost)
             - laborCost) in *.
  assert (Low : (i <= 6)%nat -> ip < 0 /\ cp < 0).
  { intros L. apply (inject_Z_of_nat_le i 6) in L.
    change (inject_Z (Z.of_nat 6)) with 6 in L.
    split; nra. }
  assert (High : (7 <= i)%nat -> 0 < ip /\ 0 < cp).
  { intros L. apply (inject_Z_of_nat_le 7 i) in L.
    change (inject_Z (Z.of_nat 7)) with 7 in L.
    split; nra. }
  split; [|split; [|split]].
  - intros L. destruct (Low L). split; apply xltb_fin; assumption.
  - intros L. destruct (High L). split; apply xltb_fin; assumption.
  - simpl. destruct (Qeq_bool ip 0) eqn:B; [|reflexivity].
    apply Qeq_bool_iff in B.
    destruct (Nat.le_gt_cases i 6) as [L|L];
      [destruct (Low L) | destruct (High L)]; lra.
  - simpl. destruct (Qeq_bool cp 0) eqn:B; [|reflexivity].
    apply Qeq_bool_iff in B.
    destruct (Nat.le_gt_cases i 6) as [L|L];
      [destruct (Low L) | destruct (High L)]; lra.
Qed.

End TrendSamples.

(** ** Labels and tooltips *)

(** X9.  The tooltip of the profit chart is [null] exactly when the chart
    is not active or the payload is missing or empty.  Otherwise it is
    decided by the first entry alone: for a row named Contractor it has
    three paragraphs that depend on the contractor profit, the labor cost
    and the revenue of the row and on nothing else (not on the investor
    profit); for any other row it has one paragraph that depends on the
    investor profit alone. *)
Theorem tooltip_depends_on_row_kind {number : Type} :
  (forall (active : bool) (payload : option (list (ProfitRow number))),
   CustomBarTooltip active payload = None
   <-> active = false \/ payload = None \/ payload = Some []) /\
  (forall (d d' : ProfitRow number) (rest rest' : list (ProfitRow number)),
   row_name d = "Contractor"%string ->
   row_name d' = "Contractor"%string ->
   row_contractorProfit d = row_contractorProfit d' ->
   row_laborCost d = row_laborCost d' ->
   row_contractorRevenue d = row_contractorRevenue d' ->
   CustomBarTooltip true (Some (d :: rest))
   = CustomBarTooltip true (Some (d' :: rest')) /\
   exists p1 p2 p3 : list (Chunk number),
     CustomBarTooltip true (Some (d :: rest)) = Some [p1; p2; p3]) /\
  (forall (d d' : ProfitRow number) (rest rest' : list (ProfitRow number)),
   row_name d <> "Contractor"%string ->
   row_name d' <> "Contractor"%string ->
   row_investorProfit d = row_investorProfit d' ->
   CustomBarTooltip true (Some (d :: rest))
   = CustomBarTooltip true (Some (d' :: rest')) /\
   exists p1 : list (Chunk number),
     CustomBarTooltip true (Some (d :: rest)) = Some [p1]).
Proof.
  split; [|split].
  - intros [|] [[|d rest]|]; simpl; split; intros E;
      try discriminate E; try tauto;
      try (destruct E as [E|[E|E]]; discriminate E).
    destruct (String.eqb (row_name d) "Contractor"); discriminate E.
  - intros d d' rest rest' Hd Hd' E1 E2 E3. simpl.
    rewrite Hd, Hd', E1, E2, E3. simpl. split; [reflexivity|].
    do 3 eexists. reflexivity.
  - intros d d' rest rest' Hd Hd' E. simpl.
    apply String.eqb_neq in Hd, Hd'. rewrite Hd, Hd', E.
    split; [reflexivity|]. eexists. reflexivity.
Qed.

(** X10.  [ContractorProfitLabel] returns the empty group exactly when
    one of its five props is undefined.  With finite props it returns a
    text anchored at the horizontal middle of the bar, 5 units above the
    top edge [y] of the bar for a value that is not negative and 5 units
    above [y + height] for a negative one, and the text starts with a
    plus sign exactly when the value is not negative. *)
Theorem contractor_label_placement :
  (forall x y width height value : option xnum,
   ContractorProfitLabel x y width height value = EmptyGroup
   <-> x = None \/ y = None \/ width = None \/ height = None
       \/ value = None) /\
  (forall x y width height value : Q,
   exists (labelX labelY : Q) (sign : String.string),
     ContractorProfitLabel (Some (Fin x)) (Some (Fin y)) (Some (Fin width))
       (Some (Fin height)) (Some (Fin value))
     = TextAt (Fin labelX) (Fin labelY)
         (Lit sign :: formatThousands (Fin value)) /\
     labelX - x == x + width - labelX /\
     (0 <= value -> labelY == y - 5 /\ sign = "+"%string) /\
     (value < 0 -> labelY == y + height - 5 /\ sign = ""%string)).
Proof.
  split.
  - intros [x|] [y|] [w|] [h|] [v|]; simpl; split; intros E;
      try discriminate E; try tauto;
      repeat (destruct E as [E|E]; try discriminate E).
  - intros x y width height value.
    unfold ContractorProfitLabel.
    cbn [num_add num_sub num_div num_lit num_lt num_ge xnum_arith
         xnum_compare].
    assert (N2 : ~ 2 == 0) by (intros E; discriminate E).
    rewrite (xdiv_fin _ _ N2), xadd_fin.
    destruct (xltb (Fin value) (Fin 0)) eqn:L;
      destruct (xgeb (Fin value) (Fin 0)) eqn:G.
    + apply xltb_fin in L. apply xgeb_fin in G. lra.
    + apply xltb_fin in L.
      rewrite xadd_fin, xsub_fin. do 3 eexists. split; [reflexivity|].
      split; [field|]. split; [intros P; lra|].
      intros _. split; reflexivity.
    + apply xgeb_fin in G.
      rewrite xsub_fin. do 3 eexists. split; [reflexivity|].
      split; [field|]. split; [intros _; split; reflexivity|].
      intros P. lra.
    + assert (A : ~ value < 0)
        by (intros A; apply xltb_fin in A; congruence).
      assert (B : ~ 0 <= value)
        by (intros B; apply xgeb_fin in B; congruence).
      lra.
Qed.

(** X15.  The formatter of the bar labels hides a label exactly when its
    value is zero.  In the dashboard the investor's row therefore never
    shows a revenue label, and with a nonzero base cost and a nonzero
    investor cost it shows no profit label exactly at break-even, when
    the price is the base cost. *)
Theorem bar_label_hidden_iff_zero
    (price acquisitionCost laborCost materialCost : Q) :
  let totalCost := acquisitionCost + laborCost + materialCost in
  let dash :=
    ProfitSharingDashboard (Fin price) (Fin acquisitionCost) (Fin laborCost)
      (Fin materialCost) in
  (forall value : Q, barLabel (Fin value) = [Lit ""%string] <-> value == 0) /\
  (forall row : ProfitRow xnum,
   nth_error (combinedProfitData dash) 0 = Some row ->
   barLabel (row_contractorRevenue row) = [Lit ""%string] /\
   (~ totalCost == 0 -> ~ acquisitionCost + materialCost == 0 ->
    (barLabel (row_investorProfit row) = [Lit ""%string]
     <-> price == totalCost))).
Proof.
  cbv zeta.
  assert (B : forall value : Q,
             barLabel (Fin value) = [Lit ""%string] <-> value == 0).
  { intros value. unfold barLabel.
    cbn [num_seq num_lit xnum_compare xnum_arith xseqb].
    destruct (Qeq_bool value 0) eqn:E.
    - apply Qeq_bool_iff in E. split; [intros _; exact E | reflexivity].
    - split; [intros F; discriminate F|].
      intros F. apply Qeq_bool_iff in F. congruence. }
  split; [exact B|].
  intros row Hrow.
  unfold ProfitSharingDashboard in Hrow.
  cbn [combinedProfitData nth_error] in Hrow. injection Hrow as <-.
  cbn [row_contractorRevenue row_investorProfit num_lit xnum_arith].
  split; [apply B; reflexivity|].
  intros N NI.
  change (barLabel
            (investorProfit
               (calculateMetrics (Fin price) (Fin acquisitionCost)
                  (Fin laborCost) (Fin materialCost))) = [Lit ""%string]
          <-> price == acquisitionCost + laborCost + materialCost).
  rewrite (investorProfit_fin _ _ _ _ N). rewrite B.
  split; intros E.
  - assert (F : (acquisitionCost + materialCost)
                / (acquisitionCost + laborCost + materialCost)
                * (price - (acquisitionCost + laborCost + materialCost)) == 0)
      by lra.
    apply Qmult_integral in F. destruct F as [F|F]; [|lra].
    exfalso. apply NI.
    assert (G : (acquisitionCost + materialCost)
                / (acquisitionCost + laborCost + materialCost)
                * (acquisitionCost + laborCost + materialCost)
                == acquisitionCost + materialCost) by (field; exact N).
    rewrite F in G. lra.
  - rewrite E. field. exact N.
Qed.

(** ** Instances of the presentation layer *)

Lemma base_cost_marker_position_witness :
  ~ 100 + 60 + 40 == 0 /\
  xeq (baseCostPercent
         (salePriceSlider
            (ProfitSharingDashboard (Fin 250) (Fin 100) (Fin 60) (Fin 40))))
      (Fin (200 # 7)).
Proof.
  assert (N : ~ 100 + 60 + 40 == 0) by Qnonzero.
  split; [exact N | exact (proj1 (base_cost_marker_position 250 100 60 40 N))].
Defined.

Lemma slider_label_matches_percentage_chart_witness :
  ~ 100 + 60 + 40 == 0 /\ ~ 100 + 40 == 0 /\ ~ 60 == 0 /\
  let dash := ProfitSharingDashboard (Fin 250) (Fin 100) (Fin 60) (Fin 40) in
  Forall
    (fun row => xeq (percentage row) (profitPercentage (salePriceSlider dash)))
    (percentageData dash).
Proof.
  assert (N : ~ 100 + 60 + 40 == 0) by Qnonzero.
  assert (NI : ~ 100 + 40 == 0) by Qnonzero.
  assert (NC : ~ 60 == 0) by Qnonzero.
  split; [exact N|]. split; [exact NI|]. split; [exact NC|].
  exact (proj1 (slider_label_matches_percentage_chart 250 100 60 40 N NI NC)).
Defined.

Lemma slider_positions_inside_track_iff_witness :
  128 < 240 /\
  exists thumb marker : Q,
    salePricePercent (SalePriceSlider (Fin 200) (Fin 128) (Fin 240) (Fin 160))
      = Fin thumb /\
    baseCostPercent (SalePriceSlider (Fin 200) (Fin 128) (Fin 240) (Fin 160))
      = Fin marker /\
    (0 <= thumb /\ thumb <= 100 <-> 128 <= 200 /\ 200 <= 240) /\
    (0 <= marker /\ marker <= 100 <-> 128 <= 160 /\ 160 <= 240).
Proof.
  assert (L : 128 < 240) by reflexivity.
  split; [exact L | exact (slider_positions_inside_track_iff 200 128 240 160 L)].
Defined.

Lemma price_fully_distributed_witness :
  ~ 100 + 60 + 40 == 0 /\
  let b := bindings (Fin 250) (Fin 100) (Fin 60) (Fin 40) in
  xeq (xadd (b_investorDistribution b) (b_contractorDistribution b)) (Fin 250).
Proof.
  assert (N : ~ 100 + 60 + 40 == 0) by Qnonzero.
  split; [exact N | exact (proj1 (price_fully_distributed 250 100 60 40 N))].
Defined.

Lemma trend_percentages_do_not_depend_on_costs_witness :
  ~ 100 + 60 + 40 == 0 /\ ~ 100 + 40 == 0 /\ ~ 60 == 0 /\ (4 <= 20)%nat /\
  exists pt : TrendPoint xnum,
    nth_error (trendData (Fin 100) (Fin 60) (Fin 40)) 4 = Some pt /\
    xeq (pt_investorProfitPercent pt) (Fin (7.5 * inject_Z (Z.of_nat 4) - 50)) /\
    xeq (pt_contractorProfitPercent pt)
        (Fin (7.5 * inject_Z (Z.of_nat 4) - 50)).
Proof.
  assert (N : ~ 100 + 60 + 40 == 0) by Qnonzero.
  assert (NI : ~ 100 + 40 == 0) by Qnonzero.
  assert (NC : ~ 60 == 0) by Qnonzero.
  assert (L : (4 <= 20)%nat) by (apply Nat.leb_le; reflexivity).
  split; [exact N|]. split; [exact NI|]. split; [exact NC|]. split; [exact L|].
  exact (trend_percentages_do_not_depend_on_costs 100 60 40 4 N NI NC L).
Defined.

Lemma trend_amounts_closed_form_witness :
  ~ 100 + 60 + 40 == 0 /\ (4 <= 20)%nat /\
  exists pt : TrendPoint xnum,
    nth_error (trendData (Fin 100) (Fin 60) (Fin 40)) 4 = Some pt /\
    xeq (salePrice pt) (Fin 160) /\
    xeq (pt_investorProfit pt) (Fin (-28)) /\
    xeq (pt_contractorProfit pt) (Fin (-12)) /\
    xeq (pt_contractorRevenue pt) (Fin 48).
Proof.
  assert (N : ~ 100 + 60 + 40 == 0) by Qnonzero.
  assert (L : (4 <= 20)%nat) by (apply Nat.leb_le; reflexivity).
  split; [exact N|]. split; [exact L|].
  destruct (trend_amounts_closed_form 100 60 40 4 N L)
    as (pt & Hn & HP & HI & HC & HR).
  exists pt. split; [exact Hn|].
  split; [etransitivity; [exact HP | vm_compute; reflexivity]|].
  split; [etransitivity; [exact HI | vm_compute; reflexivity]|].
  split; [etransitivity; [exact HC | vm_compute; reflexivity]|].
  etransitivity; [exact HR | vm_compute; reflexivity].
Defined.

Lemma trend_break_even_between_samples_witness :
  0 < 100 + 40 /\ 0 < 60 /\ (7 <= 20)%nat /\
  exists pt : TrendPoint xnum,
    nth_error (trendData (Fin 100) (Fin 60) (Fin 40)) 7 = Some pt /\
    xltb (Fin 0) (pt_investorProfit pt) = true /\
    xltb (Fin 0) (pt_contractorProfit pt) = true.
Proof.
  assert (PI : 0 < 100 + 40) by reflexivity.
  assert (PC : 0 < 60) by reflexivity.
  assert (L : (7 <= 20)%nat) by (apply Nat.leb_le; reflexivity).
  split; [exact PI|]. split; [exact PC|]. split; [exact L|].
  destruct (trend_break_even_between_samples 100 60 40 7 PI PC L)
    as (pt & Hn & _ & High & _).
  exists pt. split; [exact Hn|].
  apply High. apply Nat.leb_le. reflexivity.
Defined.

Lemma tooltip_depends_on_row_kind_witness :
  let row (investorProfit : Q) : ProfitRow xnum :=
    {| row_name := "Contractor"%string;
       row_investorProfit := Fin investorProfit;
       row_contractorProfit := Fin 15;
       row_laborCost := Fin 60;
       row_contractorRevenue := Fin 75 |} in
  CustomBarTooltip true (Some [row 0]) = CustomBarTooltip true (Some [row 35]).
Proof.
  exact (proj1
           (proj1 (proj2 (tooltip_depends_on_row_kind (number := xnum)))
              {| row_name := "Contractor"%string;
                 row_investorProfit := Fin 0;
                 row_contractorProfit := Fin 15;
                 row_laborCost := Fin 60;
                 row_contractorRevenue := Fin 75 |}
              {| row_name := "Contractor"%string;
                 row_investorProfit := Fin 35;
                 row_contractorProfit := Fin 15;
                 row_laborCost := Fin 60;
                 row_contractorRevenue := Fin 75 |}
              [] [] eq_refl eq_refl eq_refl eq_refl eq_refl)).
Defined.

Lemma contractor_label_placement_witness :
  ContractorProfitLabel (Some (Fin 10)) None (Some (Fin 30)) (Some (Fin 8))
    (Some (Fin (-12)))
  = EmptyGroup.
Proof.
  apply (proj1 contractor_label_placement).
  right. left. reflexivity.
Defined.

Lemma cost_sliders_keep_results_finite_witness :
  (xgeb (Fin 120) (fst (acquisitionCostRange : xnum * xnum)) = true /\
   xgeb (snd (acquisitionCostRange : xnum * xnum)) (Fin 120) = true) /\
  (xgeb (Fin 80) (fst (laborCostRange : xnum * xnum)) = true /\
   xgeb (snd (laborCostRange : xnum * xnum)) (Fin 80) = true) /\
  (xgeb (Fin 20) (fst (materialCostRange : xnum * xnum)) = true /\
   xgeb (snd (materialCostRange : xnum * xnum)) (Fin 20) = true) /\
  let r := calculateMetrics (Fin 200) (Fin 120) (Fin 80) (Fin 20) in
  isFinite (investorProfitPercent r) = true /\
  isFinite (contractorProfitPercent r) = true.
Proof.
  assert (A : xgeb (Fin 120) (fst (acquisitionCostRange : xnum * xnum)) = true /\
              xgeb (snd (acquisitionCostRange : xnum * xnum)) (Fin 120) = true)
    by (split; reflexivity).
  assert (L : xgeb (Fin 80) (fst (laborCostRange : xnum * xnum)) = true /\
              xgeb (snd (laborCostRange : xnum * xnum)) (Fin 80) = true)
    by (split; reflexivity).
  assert (M : xgeb (Fin 20) (fst (materialCostRange : xnum * xnum)) = true /\
              xgeb (snd (materialCostRange : xnum * xnum)) (Fin 20) = true)
    by (split; reflexivity).
  split; [exact A|]. split; [exact L|]. split; [exact M|].
  destruct (cost_sliders_keep_results_finite 200 120 80 20 A L M)
    as (_ & _ & _ & _ & FI & FC & _).
  split; [exact FI | exact FC].
Defined.

Lemma slider_track_brackets_base_cost_witness :
  0 < 120 + 80 + 80 /\
  let dash := ProfitSharingDashboard (Fin 200) (Fin 120) (Fin 80) (Fin 80) in
  xltb (salePriceMin dash) (dash_totalBaseCost dash) = true /\
  xltb (dash_totalBaseCost dash) (salePriceMax dash) = true.
Proof.
  assert (P : 0 < 120 + 80 + 80) by reflexivity.
  split; [exact P|].
  destruct (slider_track_brackets_base_cost 200 120 80 80 P) as (A & B & _).
  split; [exact A | exact B].
Defined.

Lemma slider_label_sign_witness :
  0 < 100 + 60 + 40 /\
  let dash := ProfitSharingDashboard (Fin 250) (Fin 100) (Fin 60) (Fin 40) in
  xeq (totalLoss dash)
      (xadd (investorProfit (metrics dash)) (contractorProfit (metrics dash))).
Proof.
  assert (P : 0 < 100 + 60 + 40) by reflexivity.
  split; [exact P|].
  exact (proj1 (proj2 (slider_label_sign 250 100 60 40 P))).
Defined.

Lemma bar_label_hidden_iff_zero_witness :
  barLabel (Fin 0) = [Lit ""%string].
Proof.
  apply (proj1 (bar_label_hidden_iff_zero 200 80 40 40) 0).
  reflexivity.
Defined.

(** The dashboard in its initial state (price 200, costs 80, 40, 40), in
    exact arithmetic and in binary64: the slider runs from 128 to 240,
    the margin is 40, the contractor revenue 50, and the label over the
    thumb reads +25%. *)
Lemma initial_dashboard :
  (let dash := (initialDashboard : Dashboard xnum) in
   xeq (salePriceMin dash) (Fin 128) /\ xeq (salePriceMax dash) (Fin 240) /\
   xeq (totalLoss dash) (Fin 40) /\ xeq (contractorRevenue dash) (Fin 50) /\
   xeq (investorCapitalAtRisk dash) (Fin 120) /\
   xeq (profitPercentage (salePriceSlider dash)) (Fin 25) /\
   nth_error (thumbLabel (salePriceSlider dash)) 0 = Some (Lit "+"%string)) /\
  (let dash := (initialDashboard : Dashboard float) in
   salePriceMin dash = 128%float /\ salePriceMax dash = 240%float /\
   totalLoss dash = 40%float /\ contractorRevenue dash = 50%float /\
   investorCapitalAtRisk dash = 120%float /\
   profitPercentage (salePriceSlider dash) = 25%float /\
   nth_error (thumbLabel (salePriceSlider dash)) 0 = Some (Lit "+"%string)).
Proof. repeat split; vm_compute; reflexivity. Qed.
